(** * TRM Python SDK: request retry layer and webhook verification

    A shallow embedding of [trm_sdk/client.py] ([TRMClient._request]) and
    [trm_sdk/webhooks.py] ([WebhookHandler]) together with the properties
    stated about them in the SDK specification.

    Conventions of the embedding:
    - a Python [bytes] object is a [list byte];
    - a Python [str] is the list of its code points ([list N]); this keeps
      lone surrogates and non-ASCII characters visible, which is where
      [str.encode] and [hmac.compare_digest] raise;
    - a Python call that may raise returns an [outcome]: [Ok v] or
      [Raise e]; a [try]/[except C] clause is a match on the class of [e];
    - calls that leave the process (the HTTP transport, [time.sleep]) and
      the internal steps of the dispatcher are recorded in a trace, so that
      "how many calls" and "in which order" are statements about a list. *)

From Stdlib Require Import ZArith NArith QArith Lia List String Ascii.
From Stdlib Require Import Strings.Byte.
From stdpp Require Import base option list gmap.

Set Warnings "-register-all".
Open Scope N_scope.

(* ===================================================================== *)
(** * Python values used by the SDK *)
(* ===================================================================== *)

Module Py.

(** [bytes] and [str]. *)
Abbreviation bytes := (list byte).
Abbreviation pystr := (list N).

(** An ASCII literal of the source, as a Python [str]. *)
Definition lit (s : string) : pystr :=
  List.map (fun a => N_of_ascii a) (list_ascii_of_string s).

(** An ASCII literal of the source, as a Python [bytes]. *)
Definition blit (s : string) : bytes := list_byte_of_string s.

Definition N_of_bytes (b : bytes) : list N := List.map Byte.to_N b.

Definition byte_of_N (n : N) : byte :=
  match Byte.of_N n with Some b => b | None => x00 end.

Definition bytes_of_N (l : list N) : bytes := List.map byte_of_N l.

(** Values of type [Any]: what [json.loads] produces and what the dict
    literals of the source are made of.  A [dict] keeps insertion order;
    [dict_get] is [d.get(k)]. *)
Inductive value : Type :=
| VNone
| VBool (b : bool)
| VInt (z : Z)
| VFloat (q : Q)
| VStr (s : pystr)
| VList (l : list value)
| VDict (d : list (pystr * value)).

Fixpoint pystr_eqb (a b : pystr) : bool :=
  match a, b with
  | [], [] => true
  | x :: a', y :: b' => (x =? y) && pystr_eqb a' b'
  | _, _ => false
  end.

Fixpoint dict_get (d : list (pystr * value)) (k : pystr) : option value :=
  match d with
  | [] => None
  | (k', v) :: d' => if pystr_eqb k' k then Some v else dict_get d' k
  end.

(** The exception classes the two modules distinguish.  [TRMError] carries
    the five attributes set by its constructor ([message] is the argument
    of [Exception.__init__], hence [str(e)]). *)
Record TRMError : Type := mkTRMError {
  message : value;
  code : value;
  error_type : value;
  status_code : Z;
  response : value
}.

Inductive exn_class : Type :=
| UnicodeDecodeError
| UnicodeEncodeError
| TypeError
| AttributeError
| ValueError
| OverflowError
| JSONDecodeError          (* json.JSONDecodeError *)
| RequestException         (* requests.exceptions.RequestException and subclasses *)
| OtherException           (* any other subclass of Exception *)
| BaseExceptionOnly.       (* SystemExit, KeyboardInterrupt, GeneratorExit, ... *)

Inductive exn : Type :=
| Exn (c : exn_class) (msg : pystr)
| ExnTRM (e : TRMError).

(** [isinstance(e, Exception)] *)
Definition is_Exception (e : exn) : bool :=
  match e with
  | Exn BaseExceptionOnly _ => false
  | _ => true
  end.

(** [isinstance(e, json.JSONDecodeError)] *)
Definition is_JSONDecodeError (e : exn) : bool :=
  match e with
  | Exn JSONDecodeError _ => true
  | _ => false
  end.

(** [isinstance(e, requests.exceptions.RequestException)] *)
Definition is_RequestException (e : exn) : bool :=
  match e with
  | Exn RequestException _ => true
  | _ => false
  end.

(** [type(v).__name__] *)
Definition type_name (v : value) : pystr :=
  match v with
  | VNone => lit "NoneType"
  | VBool _ => lit "bool"
  | VInt _ => lit "int"
  | VFloat _ => lit "float"
  | VStr _ => lit "str"
  | VList _ => lit "list"
  | VDict _ => lit "dict"
  end.

Inductive outcome (A : Type) : Type :=
| Ok (a : A)
| Raise (e : exn).
Arguments Ok {A} a.
Arguments Raise {A} e.

Definition bind {A B} (m : outcome A) (k : A -> outcome B) : outcome B :=
  match m with
  | Ok a => k a
  | Raise e => Raise e
  end.

End Py.

Notation "'let!' x ':=' m 'in' k" := (Py.bind m (fun x => k))
  (at level 10, x name, m at level 100, k at level 200).

(* ===================================================================== *)
(** * UTF-8, as [bytes.decode('utf-8')] and [str.encode('utf-8')] *)
(* ===================================================================== *)

Module Utf8.
Import Py.

(** A continuation byte, 10xxxxxx. *)
Definition is_cont (b : N) : bool := (0x80 <=? b) && (b <=? 0xBF).

Definition is_surrogate (c : N) : bool := (0xD800 <=? c) && (c <=? 0xDFFF).

(** The strict decoder: shortest form only, no surrogates, nothing above
    U+10FFFF.  [None] stands for [UnicodeDecodeError]. *)
Fixpoint decode (bs : list N) : option pystr :=
  match bs with
  | [] => Some []
  | b0 :: r0 =>
    if b0 <? 0x80 then
      match decode r0 with Some s => Some (b0 :: s) | None => None end
    else if b0 <? 0xC0 then None
    else if b0 <? 0xE0 then
      match r0 with
      | b1 :: r1 =>
        let c := (b0 - 0xC0) * 64 + (b1 - 0x80) in
        if is_cont b1 && (0x80 <=? c) then
          match decode r1 with Some s => Some (c :: s) | None => None end
        else None
      | _ => None
      end
    else if b0 <? 0xF0 then
      match r0 with
      | b1 :: b2 :: r2 =>
        let c := (b0 - 0xE0) * 4096 + (b1 - 0x80) * 64 + (b2 - 0x80) in
        if is_cont b1 && is_cont b2 && (0x800 <=? c) && negb (is_surrogate c) then
          match decode r2 with Some s => Some (c :: s) | None => None end
        else None
      | _ => None
      end
    else if b0 <? 0xF8 then
      match r0 with
      | b1 :: b2 :: b3 :: r3 =>
        let c := (b0 - 0xF0) * 262144 + (b1 - 0x80) * 4096
                 + (b2 - 0x80) * 64 + (b3 - 0x80) in
        if is_cont b1 && is_cont b2 && is_cont b3
           && (0x10000 <=? c) && (c <? 0x110000) then
          match decode r3 with Some s => Some (c :: s) | None => None end
        else None
      | _ => None
      end
    else None
  end.

(** One code point; [None] stands for [UnicodeEncodeError] (a surrogate). *)
Definition encode_char (c : N) : option (list N) :=
  if c <? 0x80 then Some [c]
  else if c <? 0x800 then Some [0xC0 + c / 64; 0x80 + c mod 64]
  else if c <? 0x10000 then
    if is_surrogate c then None
    else Some [0xE0 + c / 4096; 0x80 + (c / 64) mod 64; 0x80 + c mod 64]
  else if c <? 0x110000 then
    Some [0xF0 + c / 262144; 0x80 + (c / 4096) mod 64;
          0x80 + (c / 64) mod 64; 0x80 + c mod 64]
  else None.

Fixpoint encode (s : pystr) : option (list N) :=
  match s with
  | [] => Some []
  | c :: s' =>
    match encode_char c, encode s' with
    | Some l, Some r => Some (l ++ r)
    | _, _ => None
    end
  end.

(** [b.decode('utf-8')] *)
Definition bytes_decode (b : bytes) : outcome pystr :=
  match decode (N_of_bytes b) with
  | Some s => Ok s
  | None => Raise (Exn UnicodeDecodeError (lit "invalid utf-8"))
  end.

(** [s.encode('utf-8')] *)
Definition str_encode (s : pystr) : outcome bytes :=
  match encode s with
  | Some l => Ok (bytes_of_N l)
  | None => Raise (Exn UnicodeEncodeError (lit "surrogates not allowed"))
  end.

End Utf8.

(* ===================================================================== *)
(** * SHA-256 (FIPS 180-4) and HMAC (RFC 2104), as [hashlib] and [hmac] *)
(* ===================================================================== *)

Module Sha256.
Import Py.

Definition wrap (x : N) : N := x mod 2 ^ 32.
Definition add32 (x y : N) : N := wrap (x + y).
Definition rotr (n x : N) : N :=
  N.lor (N.shiftr x n) (wrap (N.shiftl x (32 - n))).
Definition not32 (x : N) : N := N.lxor x 0xFFFFFFFF.

Definition Ch (x y z : N) : N := N.lxor (N.land x y) (N.land (not32 x) z).
Definition Maj (x y z : N) : N :=
  N.lxor (N.lxor (N.land x y) (N.land x z)) (N.land y z).
Definition Sigma0 (x : N) : N := N.lxor (N.lxor (rotr 2 x) (rotr 13 x)) (rotr 22 x).
Definition Sigma1 (x : N) : N := N.lxor (N.lxor (rotr 6 x) (rotr 11 x)) (rotr 25 x).
Definition sigma0 (x : N) : N := N.lxor (N.lxor (rotr 7 x) (rotr 18 x)) (N.shiftr x 3).
Definition sigma1 (x : N) : N := N.lxor (N.lxor (rotr 17 x) (rotr 19 x)) (N.shiftr x 10).

(** The constants are defined as in FIPS 180-4: the first 32 bits of the
    fractional parts of the cube roots (round constants) and of the square
    roots (initial hash value) of the first primes. *)
Definition is_prime (n : N) : bool :=
  (2 <=? n) &&
  List.forallb (fun d => negb (n mod N.of_nat d =? 0))
               (List.seq 2 (N.to_nat n - 2)).

Definition primes (k : nat) : list N :=
  List.firstn k (List.filter is_prime (List.map N.of_nat (List.seq 2 310))).

(** The integer cube root, one bit at a time from bit [bits - 1] down. *)
Fixpoint cube_root (bits : nat) (n x : N) : N :=
  match bits with
  | O => x
  | S b =>
    let y := x + 2 ^ N.of_nat b in
    cube_root b n (if y * y * y <=? n then y else x)
  end.

Definition K : list N :=
  Eval vm_compute in
    List.map (fun q => wrap (cube_root 40 (q * 2 ^ 96) 0)) (primes 64).

Definition H0 : list N :=
  Eval vm_compute in
    List.map (fun q => wrap (N.sqrt (q * 2 ^ 64))) (primes 8).

Definition at_ (l : list N) (i : nat) : N := List.nth i l 0.

(** 64 rounds over one block.  [w] is the sliding window of the last 16
    words of the message schedule; [st] is the working state a..h. *)
Fixpoint rounds (ks : list N) (w st : list N) : list N :=
  match ks with
  | [] => st
  | k :: ks' =>
    let t1 := add32 (add32 (add32 (add32 (at_ st 7) (Sigma1 (at_ st 4)))
                                  (Ch (at_ st 4) (at_ st 5) (at_ st 6))) k)
                    (at_ w 0) in
    let t2 := add32 (Sigma0 (at_ st 0)) (Maj (at_ st 0) (at_ st 1) (at_ st 2)) in
    let wn := add32 (add32 (add32 (sigma1 (at_ w 14)) (at_ w 9))
                           (sigma0 (at_ w 1))) (at_ w 0) in
    rounds ks' (List.tl w ++ [wn])
      [add32 t1 t2; at_ st 0; at_ st 1; at_ st 2;
       add32 (at_ st 3) t1; at_ st 4; at_ st 5; at_ st 6]
  end.

(** Big-endian 32-bit words of a byte sequence whose length is a multiple
    of four. *)
Fixpoint words (bs : list N) : list N :=
  match bs with
  | a :: b :: c :: d :: r => (((a * 256 + b) * 256 + c) * 256 + d) :: words r
  | _ => []
  end.

Definition compress (h : list N) (block : list N) : list N :=
  List.map (fun p => add32 (fst p) (snd p))
           (List.combine h (rounds K (words block) h)).

(** [n] 64-byte blocks from [bs]. *)
Fixpoint blocks (n : nat) (h : list N) (bs : list N) : list N :=
  match n with
  | O => h
  | S n' => blocks n' (compress h (List.firstn 64 bs)) (List.skipn 64 bs)
  end.

Definition be_bytes (k : nat) (x : N) : list N :=
  List.map (fun i => (x / 256 ^ N.of_nat i) mod 256) (List.rev (List.seq 0 k)).

Definition pad (bs : list N) : list N :=
  let len := N.of_nat (List.length bs) in
  let z := (64 - (len + 9) mod 64) mod 64 in
  bs ++ [0x80] ++ List.repeat 0 (N.to_nat z) ++ be_bytes 8 (8 * len).

Definition digest_N (bs : list N) : list N :=
  let p := pad bs in
  List.concat (List.map (be_bytes 4) (blocks (List.length p / 64) H0 p)).

(** [hashlib.sha256(m).digest()] *)
Definition sha256 (m : bytes) : bytes := bytes_of_N (digest_N (N_of_bytes m)).

Definition xor_pad (c : N) (key : list N) : list N :=
  List.map (fun k => N.lxor k c) (key ++ List.repeat 0 (64 - List.length key)).

(** [hmac.new(key, msg, hashlib.sha256).digest()] *)
Definition hmac_N (key msg : list N) : list N :=
  let k := if (64 <? N.of_nat (List.length key)) then digest_N key else key in
  digest_N (xor_pad 0x5c k ++ digest_N (xor_pad 0x36 k ++ msg)).

Definition hmac_sha256 (key msg : bytes) : bytes :=
  bytes_of_N (hmac_N (N_of_bytes key) (N_of_bytes msg)).

Definition hex_digit (d : N) : N := if d <? 10 then 48 + d else 87 + d.

(** [bytes.hex()] / [.hexdigest()]: two lowercase hex digits per byte. *)
Definition hex (b : bytes) : pystr :=
  List.concat (List.map (fun x => [hex_digit (Byte.to_N x / 16);
                                   hex_digit (Byte.to_N x mod 16)]) b).

Definition hexdigest (key msg : bytes) : pystr := hex (hmac_sha256 key msg).

End Sha256.

(* ===================================================================== *)
(** * [trm_sdk/webhooks.py] *)
(* ===================================================================== *)

Module Webhooks.
Import Py.

(** A registered object: its truth value, which [if handler:] tests and
    which may raise, and what calling it on the parsed payload does. *)
Record handler : Type := mkHandler {
  truth : outcome bool;
  run : value -> outcome value
}.

(** A Python function: true, and calling it runs its body. *)
Definition py_function (body : value -> outcome value) : handler :=
  {| truth := Ok true; run := body |}.

(** The instance attributes set by [__init__]. *)
Record WebhookHandler : Type := mkWebhookHandler {
  secret : pystr;
  handlers : gmap pystr handler
}.

Definition init (secret : pystr) : WebhookHandler :=
  {| secret := secret; handlers := ∅ |}.

(** [on]: [self.handlers[event] = handler; return self] *)
Definition on (self : WebhookHandler) (event : pystr) (h : handler)
  : WebhookHandler :=
  {| secret := secret self; handlers := <[event := h]> (handlers self) |}.

Definition eq_sign : N := 61.   (* '=' *)
Definition dot : N := 46.       (* '.' *)

(** ['=' in signature] *)
Definition has_eq (signature : pystr) : bool :=
  List.existsb (N.eqb eq_sign) signature.

(** The second component of [signature.split('=', 1)], for a signature
    that contains ['=']. *)
Fixpoint after_eq (signature : pystr) : pystr :=
  match signature with
  | [] => []
  | c :: r => if c =? eq_sign then r else after_eq r
  end.

(** The [if '=' in signature: ... else: ...] statement: the value bound to
    [provided]. *)
Definition provided_part (signature : pystr) : pystr :=
  if has_eq signature then after_eq signature else signature.

Definition is_ascii (s : pystr) : bool := List.forallb (fun c => c <? 128) s.

(** [hmac.compare_digest] on two [str]: a [TypeError] unless both are
    ASCII, their equality otherwise. *)
Definition compare_digest (a b : pystr) : outcome bool :=
  if is_ascii a && is_ascii b then Ok (pystr_eqb a b)
  else Raise (Exn TypeError
                (lit "comparing strings with non-ASCII characters is not supported")).

(** The suite of the [try] statement of [verify_signature]. *)
Definition verify_signature_try (self : WebhookHandler) (payload : bytes)
    (signature timestamp : pystr) : outcome bool :=
  let! text := Utf8.bytes_decode payload in
  let signed_payload := timestamp ++ [dot] ++ text in
  let! key := Utf8.str_encode (secret self) in
  let! msg := Utf8.str_encode signed_payload in
  let expected := Sha256.hexdigest key msg in
  let provided := provided_part signature in
  compare_digest provided expected.

(** [verify_signature]: the suite above under [except Exception: return False]. *)
Definition verify_signature (self : WebhookHandler) (payload : bytes)
    (signature timestamp : pystr) : outcome bool :=
  match verify_signature_try self payload signature timestamp with
  | Ok b => Ok b
  | Raise e => if is_Exception e then Ok false else Raise e
  end.

(** The internal steps of a dispatch, in the order they are taken. *)
Inductive step : Type :=
| CheckSignature (payload : bytes) (signature timestamp : pystr)
| ParseJson (body : bytes)
| CallHandler (event : pystr) (data : value).

Definition error_result (msg : pystr) : value :=
  VDict [(lit "error", VStr msg)].

Definition success_result (r : value) : value :=
  VDict [(lit "success", VBool true); (lit "result", r)].

Definition no_handler_result : value :=
  VDict [(lit "success", VBool true);
         (lit "message", VStr (lit "No handler for event"))].

(** Truth value of the result of [headers.get(name)]: [None] and the empty
    string are false. *)
Definition truthy (h : option pystr) : bool :=
  match h with
  | Some (_ :: _) => true
  | _ => false
  end.

(** The header value once [all([...])] has passed. *)
Definition the_str (h : option pystr) : pystr := default [] h.

(** What [flask.Request] offers to [handle]: [request.headers.get] and
    [request.get_data()]. *)
Record Request : Type := mkRequest {
  headers_get : pystr -> option pystr;
  get_data : bytes
}.

Section Dispatch.

(** [json.loads] on [bytes]: a value, or an exception of some class. *)
Variable json_loads : bytes -> outcome value.

(** [str(e)] on a caught exception: a string, or what [__str__] raises. *)
Variable str_of : exn -> outcome pystr.

Definition handle_raw (self : WebhookHandler) (headers : gmap pystr pystr)
    (body : bytes) : list step * outcome value :=
  let signature := headers !! lit "X-TRM-Signature" in
  let timestamp := headers !! lit "X-TRM-Timestamp" in
  let event := headers !! lit "X-TRM-Event" in
  if negb (List.forallb truthy [signature; timestamp; event]) then
    ([], Ok (error_result (lit "Missing required headers")))
  else
    let t1 := [CheckSignature body (the_str signature) (the_str timestamp)] in
    match verify_signature self body (the_str signature) (the_str timestamp) with
    | Raise e => (t1, Raise e)
    | Ok false => (t1, Ok (error_result (lit "Invalid signature")))
    | Ok true =>
      let t2 := t1 ++ [ParseJson body] in
      match json_loads body with
      | Raise e =>
        if is_JSONDecodeError e
        then (t2, Ok (error_result (lit "Invalid JSON payload")))
        else (t2, Raise e)
      | Ok data =>
        match handlers self !! the_str event with
        | Some h =>
          match truth h with
          | Raise e => (t2, Raise e)
          | Ok false => (t2, Ok no_handler_result)
          | Ok true =>
            let t3 := t2 ++ [CallHandler (the_str event) data] in
            match run h data with
            | Ok result => (t3, Ok (success_result result))
            | Raise e =>
              if is_Exception e then
                match str_of e with
                | Ok s => (t3, Ok (error_result s))
                | Raise e' => (t3, Raise e')
                end
              else (t3, Raise e)
            end
          end
        | None => (t2, Ok no_handler_result)
        end
      end
    end.

Definition handle (self : WebhookHandler) (request : Request)
  : list step * outcome value :=
  let signature := headers_get request (lit "X-TRM-Signature") in
  let timestamp := headers_get request (lit "X-TRM-Timestamp") in
  let event := headers_get request (lit "X-TRM-Event") in
  if negb (List.forallb truthy [signature; timestamp; event]) then
    ([], Ok (error_result (lit "Missing required headers")))
  else
    let payload := get_data request in
    let t1 := [CheckSignature payload (the_str signature) (the_str timestamp)] in
    match verify_signature self payload (the_str signature) (the_str timestamp) with
    | Raise e => (t1, Raise e)
    | Ok false => (t1, Ok (error_result (lit "Invalid signature")))
    | Ok true =>
      let t2 := t1 ++ [ParseJson payload] in
      match json_loads payload with
      | Raise e =>
        if is_JSONDecodeError e
        then (t2, Ok (error_result (lit "Invalid JSON payload")))
        else (t2, Raise e)
      | Ok data =>
        let handler := handlers self !! the_str event in
        match handler with
        | Some h =>
          match truth h with
          | Raise e => (t2, Raise e)
          | Ok false => (t2, Ok no_handler_result)
          | Ok true =>
            let t3 := t2 ++ [CallHandler (the_str event) data] in
            match run h data with
            | Ok result => (t3, Ok (success_result result))
            | Raise e =>
              if is_Exception e then
                match str_of e with
                | Ok s => (t3, Ok (error_result s))
                | Raise e' => (t3, Raise e')
                end
              else (t3, Raise e)
            end
          end
        | None => (t2, Ok no_handler_result)
        end
      end
    end.

(** The methods of the class, and the effect of calling one on the
    instance: the instance afterwards and what the call gave back. *)
Inductive method : Type :=
| M_on (event : pystr) (h : handler)
| M_verify_signature (payload : bytes) (signature timestamp : pystr)
| M_handle (request : Request)
| M_handle_raw (headers : gmap pystr pystr) (body : bytes).

Inductive returned : Type :=
| RSelf
| RBool (b : outcome bool)
| RDispatch (r : list step * outcome value).

Definition call (self : WebhookHandler) (m : method)
  : WebhookHandler * returned :=
  match m with
  | M_on event h => (on self event h, RSelf)
  | M_verify_signature p s t => (self, RBool (verify_signature self p s t))
  | M_handle request => (self, RDispatch (handle self request))
  | M_handle_raw headers body => (self, RDispatch (handle_raw self headers body))
  end.

End Dispatch.

End Webhooks.

(* ===================================================================== *)
(** * [trm_sdk/client.py]: [TRMClient._request] *)
(* ===================================================================== *)

Module Client.
Import Py.

(** What [_request] reads of a [requests.Response]: [status_code],
    [content] and the result of [json()]. *)
Record Response : Type := mkResponse {
  resp_status : Z;
  content : bytes;
  json : outcome value
}.

(** [response.ok] is [False] exactly when [raise_for_status()] raises,
    which it does for [400 <= status_code < 600]. *)
Definition ok (r : Response) : bool :=
  negb ((400 <=? resp_status r)%Z && (resp_status r <? 600)%Z).

(** The attributes of the client that [_request]'s loop reads.  The float
    [retry_delay] is a rational: scaling by a power of two is exact. *)
Record TRMClient : Type := mkTRMClient {
  max_retries : Z;
  retry_delay : Q
}.

(** What leaves the process, in order: [session.request] (the same
    method, url, body, parameters and timeout at every attempt) and the
    statement [time.sleep(self.retry_delay * (2 ** attempt))], recorded
    with the value of its argument whether it completes or raises. *)
Inductive io : Type :=
| Send (attempt : nat)
| Sleep (seconds : Q).

(** The [AttributeError] of [v.get] on a value that is no [dict]. *)
Definition no_get (v : value) : exn :=
  Exn AttributeError
      (lit "'" ++ type_name v ++ lit "' object has no attribute 'get'").

(** [v.get(k, dflt)]: defined on a [dict] only. *)
Definition py_get (v : value) (k : pystr) (dflt : value) : outcome value :=
  match v with
  | VDict d => Ok (default dflt (dict_get d k))
  | _ => Raise (no_get v)
  end.

(** [response_data.get('error', {}).get(k, dflt)] *)
Definition error_field (response_data : value) (k dflt : string)
  : outcome value :=
  let! e := py_get response_data (lit "error") (VDict []) in
  py_get e (lit k) (VStr (lit dflt)).

Definition make_error (response : Response) (response_data : value)
  : outcome TRMError :=
  let! m := error_field response_data "message" "API Error" in
  let! c := error_field response_data "code" "unknown_error" in
  let! t := error_field response_data "type" "api_error" in
  Ok {| message := m; code := c; error_type := t;
        status_code := resp_status response; response := response_data |}.

(** How one pass through the loop body up to the [except] clause ends. *)
Inductive attempt_end : Type :=
| Return (v : value)        (* [return response_data] *)
| Propagate (e : exn)       (* an exception leaves [_request] *)
| Next (last_error : exn).  (* fall through to the back-off *)

(** The suite of the [try]: [inl] is [return response_data], [inr] is the
    assignment [last_error = error]. *)
Definition try_suite (sent : outcome Response) : outcome (value + exn) :=
  let! response := sent in
  let! response_data :=
    match content response with
    | [] => Ok (VDict [])
    | _ :: _ => json response
    end in
  if negb (ok response) then
    let! error := make_error response response_data in
    if (400 <=? resp_status response)%Z && (resp_status response <? 500)%Z
    then Raise (ExnTRM error)
    else Ok (inr (ExnTRM error))
  else Ok (inl response_data).

(** The [try] with its [except requests.exceptions.RequestException]. *)
Definition attempt_once (sent : outcome Response) : attempt_end :=
  match try_suite sent with
  | Ok (inl v) => Return v
  | Ok (inr e) => Next e
  | Raise e => if is_RequestException e then Next e else Propagate e
  end.

Definition max_retries_exceeded : TRMError :=
  {| message := VStr (lit "Max retries exceeded");
     code := VStr (lit "max_retries");
     error_type := VStr (lit "request_error");
     status_code := 0%Z;
     response := VDict [] |}.

(** The value of [self.retry_delay * (2 ** attempt)] as a number.  Whether
    the float product can be formed and slept for is the matter of [pause]
    below. *)
Definition backoff (self : TRMClient) (attempt : nat) : Q :=
  (retry_delay self * inject_Z (2 ^ Z.of_nat attempt))%Q.

Section Request.

(** The transport: what [session.request] does at each attempt. *)
Variable transport : nat -> outcome Response.

(** The statement [time.sleep(self.retry_delay * (2 ** attempt))] at a
    given attempt, on the value of its argument: it completes ([None]) or
    raises - [ValueError] for a negative delay, [OverflowError] where
    [2 ** attempt] does not fit a float or the delay is more than the
    clock can hold.  It stands outside the [try]. *)
Variable pause : nat -> Q -> option exn.

(** [n] further iterations of [for attempt in range(self.max_retries)],
    then the final [raise last_error or TRMError(...)]. *)
Fixpoint attempts (self : TRMClient) (n : nat) (attempt : nat)
    (last_error : option exn) : list io * outcome value :=
  match n with
  | O =>
    ([], Raise (match last_error with
                | Some e => e
                | None => ExnTRM max_retries_exceeded
                end))
  | S n' =>
    match attempt_once (transport attempt) with
    | Return v => ([Send attempt], Ok v)
    | Propagate e => ([Send attempt], Raise e)
    | Next e =>
      if (Z.of_nat attempt <? max_retries self - 1)%Z then
        match pause attempt (backoff self attempt) with
        | Some raised =>
          ([Send attempt; Sleep (backoff self attempt)], Raise raised)
        | None =>
          let '(t, r) := attempts self n' (S attempt) (Some e) in
          (Send attempt :: Sleep (backoff self attempt) :: t, r)
        end
      else
        let '(t, r) := attempts self n' (S attempt) (Some e) in
        (Send attempt :: t, r)
    end
  end.

Definition _request (self : TRMClient) : list io * outcome value :=
  attempts self (Z.to_nat (max_retries self)) 0 None.

End Request.

End Client.

(* ===================================================================== *)
(** * The documented signature construction *)
(* ===================================================================== *)

Module Documented.
Import Py.

(** The body is text: [payload.decode('utf-8')] succeeds. *)
Definition valid_utf8 (payload : bytes) : Prop :=
  is_Some (Utf8.decode (N_of_bytes payload)).

(** The documented construction, in the words of the specification: [h] is
    the lowercase hex HMAC-SHA256, keyed by the UTF-8 bytes of the secret,
    over the UTF-8 bytes of the timestamp, a ["."], and the raw body as
    received. *)
Definition documented_signature (secret timestamp : pystr) (body : bytes)
    (h : pystr) : Prop :=
  exists key t : bytes,
    Utf8.str_encode secret = Ok key /\
    Utf8.str_encode timestamp = Ok t /\
    h = Sha256.hexdigest key (t ++ blit "." ++ body).

(** A header that [headers.get] does not find, or finds empty. *)
Definition absent_or_empty (h : option pystr) : Prop := h = None \/ h = Some [].

(** Bit [k] of the byte at position [i] inverted: a single-bit mutation. *)
Definition flip_bit (i : nat) (k : N) (b : bytes) : bytes :=
  match b !! i with
  | Some x => <[i := byte_of_N (N.lxor (Byte.to_N x) (2 ^ k))]> b
  | None => b
  end.

End Documented.

(* ===================================================================== *)
(** * The scenario of the specification, used for the concrete checks *)
(* ===================================================================== *)

Module Scenario.
Import Py Webhooks.

Definition whsec : pystr := lit "whsec_test".
Definition stamp : pystr := lit "1700000000".
Definition dq : bytes := [x22].   (* the double quote *)
(** The exact bytes of the JSON text with the single member "id". *)
Definition evt_body : bytes :=
  blit "{" ++ dq ++ blit "id" ++ dq ++ blit ":" ++ dq ++ blit "evt_1" ++ dq
  ++ blit "}".
Definition evt_data : value := VDict [(lit "id", VStr (lit "evt_1"))].

(** The signature header the sender computes: ["v1="] and the hex digest. *)
Definition sign (secret timestamp : pystr) (body : bytes) : pystr :=
  lit "v1=" ++ Sha256.hexdigest (bytes_of_N (default [] (Utf8.encode secret)))
                 (bytes_of_N (default [] (Utf8.encode timestamp))
                  ++ blit "." ++ body).

Definition headers_of (signature timestamp event : pystr) : gmap pystr pystr :=
  <[lit "X-TRM-Signature" := signature]>
    (<[lit "X-TRM-Timestamp" := timestamp]>
       (<[lit "X-TRM-Event" := event]> ∅)).

(** A [json.loads] that accepts the scenario's body and nothing else. *)
Definition loads_evt (b : bytes) : outcome value :=
  if pystr_eqb (N_of_bytes b) (N_of_bytes evt_body) then Ok evt_data
  else Raise (Exn JSONDecodeError (lit "Expecting value")).



Definition not_json : bytes := blit "{not json".

(** A request in the scenario, as Flask presents it. *)
Definition request_of (headers : gmap pystr pystr) (body : bytes) : Request :=
  {| headers_get := fun name => headers !! name; get_data := body |}.


Definition failing : handler :=
  py_function (fun _ => Raise (Exn OtherException (lit "boom"))).

Definition echo : handler := py_function (fun data => Ok data).

(** [str(e)] on the exceptions of the scenarios: an exception built from
    one string gives that string; a [TRMError] gives its message, or
    ["None"] when it has none. *)
Definition str_first_arg (e : exn) : outcome pystr :=
  match e with
  | Exn _ msg => Ok msg
  | ExnTRM t => match message t with VStr s => Ok s | _ => Ok (lit "None") end
  end.

End Scenario.

(* ===================================================================== *)
(** * The documented retry policy *)
(* ===================================================================== *)

Module Policy.
Import Py Client.

(** The body of a response as [_request] reads it: the empty object for
    zero content, what [json()] returns otherwise. *)
Definition parsed_body (r : Response) (data : value) : Prop :=
  (content r = [] /\ data = VDict []) \/
  (content r <> [] /\ json r = Ok data).



(** The attempt did not end the call: it fell through to the back-off. *)
Definition retried (sent : outcome Response) : Prop :=
  exists e, attempt_once sent = Next e.


(** The pauses after the attempts before [k] complete. *)
Definition pauses_return (pause : nat -> Q -> option exn) (self : TRMClient)
    (k : nat) : Prop :=
  forall i, (i < k)%nat -> pause i (backoff self i) = None.

(** The value on which building the error fails: a body that is no
    object, or an ["error"] member that is no object. *)
Definition offending (data : value) : option value :=
  match data with
  | VDict d =>
    match dict_get d (lit "error") with
    | None => None
    | Some (VDict _) => None
    | Some v => Some v
    end
  | v => Some v
  end.

(** One retried attempt in the trace: the call, then the pause. *)
Definition retry_round (self : TRMClient) (i : nat) : list io :=
  [Send i; Sleep (backoff self i)].

Definition retried_rounds (self : TRMClient) (k : nat) : list io :=
  List.concat (List.map (retry_round self) (List.seq 0 k)).




End Policy.

Module ClientScenario.
Import Py Client.

Definition client3 : TRMClient := {| max_retries := 3; retry_delay := 1 |}.

Definition respond (status : Z) (body : bytes) (parsed : outcome value) : Response :=
  {| resp_status := status; content := body; json := parsed |}.

Definition flat_error : value := VDict [(lit "error", VStr (lit "boom"))].

Definition server_flat : Response :=
  respond 500 (blit "{...}") (Ok flat_error).
Definition status_600 : Response := respond 600 [] (Ok VNone).
Definition created : Response :=
  respond 201 (blit "{...}") (Ok (VDict [(lit "id", VInt 7)])).
Definition no_content : Response := respond 204 [] (Ok VNone).
(** A 404 whose body is an HTML page: [json()] raises the
    [JSONDecodeError] of [requests], a [RequestException]. *)
Definition not_found_html : Response :=
  respond 404 (blit "<html>")
    (Raise (Exn RequestException (lit "Expecting value"))).

Definition timed_out : outcome Response :=
  Raise (Exn RequestException (lit "Read timed out")).

Definition always (o : outcome Response) : nat -> outcome Response := fun _ => o.


(** The pause statement on CPython for a float [retry_delay], up to the
    exact place of the upper limit: [2 ** attempt] must fit a float, the
    delay must not be negative, and the clock holds about 9.2e9 seconds. *)
Definition clock (attempt : nat) (d : Q) : option exn :=
  if (1024 <=? attempt)%nat
  then Some (Exn OverflowError (lit "int too large to convert to float"))
  else if negb (Qle_bool 0 d)
  then Some (Exn ValueError (lit "sleep length must be non-negative"))
  else if Qle_bool d 9223372036 then None
  else Some (Exn OverflowError
               (lit "timestamp too large to convert to C _PyTime_t")).

(** The first [k] attempts give [first], the later ones [o]. *)
Definition after (k : nat) (first o : outcome Response) : nat -> outcome Response :=
  fun i => if (i <? k)%nat then first else o.

End ClientScenario.

(* ===================================================================== *)
(** * [trm_sdk/client.py]: the constructor and the resource methods *)
(* ===================================================================== *)

Module Resources.
Import Py Client.

Definition slash : N := 47.   (* '/' *)

(** [s.lstrip('/')] and [s.rstrip('/')] *)
Fixpoint lstrip_slash (s : pystr) : pystr :=
  match s with
  | [] => []
  | c :: r => if c =? slash then lstrip_slash r else s
  end.

Definition rstrip_slash (s : pystr) : pystr :=
  List.rev (lstrip_slash (List.rev s)).

(** The instance built by [TRMClient.__init__]: the attributes it stores
    and the entries it writes into the session's headers.  [retry] holds
    the two attributes the loop of [_request] reads. *)
Record Session : Type := mkSession {
  api_key : pystr;
  base_url : pystr;
  timeout : Z;
  retry : TRMClient;
  sdk_headers : list (pystr * pystr)
}.

Definition new_client (api_key base_url : pystr) (timeout max_retries : Z)
    (retry_delay : Q) : Session :=
  {| api_key := api_key;
     base_url := rstrip_slash base_url;
     timeout := timeout;
     retry := {| max_retries := max_retries; retry_delay := retry_delay |};
     sdk_headers := [(lit "X-API-Key", api_key);
                     (lit "Content-Type", lit "application/json");
                     (lit "User-Agent", lit "TRM-Python-SDK/1.0.0")] |}.

(** The defaults of the constructor's parameters. *)
Definition default_client (api_key : pystr) : Session :=
  new_client api_key (lit "https://api.trm.com/v1") 30 3 1.

(** The arguments a resource method gives to [_request]: [data] is [VNone]
    and [params] is [None] where the method leaves them out; a method with
    [**params] always passes the dict of its keyword arguments. *)
Record api_call : Type := mkCall {
  verb : pystr;
  endpoint : pystr;
  data : value;
  params : option (list (pystr * value))
}.

(** What [_request] hands to [session.request] at every attempt.  The url
    is [urljoin(join_base, join_rel)]; the two arguments are kept as they
    are computed. *)
Record sent_request : Type := mkSent {
  sr_method : pystr;
  sr_join_base : pystr;
  sr_join_rel : pystr;
  sr_json : value;
  sr_params : option (list (pystr * value));
  sr_timeout : Z
}.

Definition request_args (self : Session) (c : api_call) : sent_request :=
  {| sr_method := verb c;
     sr_join_base := base_url self ++ [slash];
     sr_join_rel := lstrip_slash (endpoint c);
     sr_json := data c;
     sr_params := params c;
     sr_timeout := timeout self |}.

(** Truth value of an optional [str] argument ([if notes:], [if reason]). *)
Definition given (s : option pystr) : bool :=
  match s with
  | Some (_ :: _) => true
  | _ => false
  end.

(** The resource methods, one constructor per method with the method's
    parameters. *)
Inductive operation : Type :=
| list_jobs (kw : list (pystr * value))
| get_job (job_id : pystr)
| create_job (body : value)
| update_job (job_id : pystr) (body : value)
| delete_job (job_id : pystr)
| get_related_jobs (job_id : pystr) (kw : list (pystr * value))
| list_referrals (kw : list (pystr * value))
| get_referral (referral_id : pystr)
| create_referral (body : value)
| update_referral_status (referral_id status : pystr) (notes : option pystr)
| get_referral_tracking (referral_id : pystr)
| list_companies (kw : list (pystr * value))
| get_company (company_id : pystr)
| get_company_jobs (company_id : pystr) (kw : list (pystr * value))
| create_company (body : value)
| update_company (company_id : pystr) (body : value)
| get_current_user
| update_current_user (body : value)
| get_current_user_referrals (kw : list (pystr * value))
| get_current_user_stats
| get_user (user_id : pystr)
| verify_key
| list_api_keys
| get_api_key (key_id : pystr)
| create_api_key (body : value)
| update_api_key (key_id : pystr) (body : value)
| revoke_api_key (key_id : pystr) (reason : option pystr)
| rotate_api_key (key_id : pystr)
| get_api_key_usage (key_id : pystr) (kw : list (pystr * value))
| get_permissions
| list_webhooks (kw : list (pystr * value))
| get_webhook (webhook_id : pystr)
| create_webhook (body : value)
| update_webhook (webhook_id : pystr) (body : value)
| delete_webhook (webhook_id : pystr)
| test_webhook (webhook_id : pystr)
| get_webhook_deliveries (webhook_id : pystr) (kw : list (pystr * value))
| get_delivery (webhook_id delivery_id : pystr)
| get_webhook_events
| health.

Definition GET : pystr := lit "GET".
Definition POST : pystr := lit "POST".
Definition PUT : pystr := lit "PUT".
Definition PATCH : pystr := lit "PATCH".
Definition DELETE : pystr := lit "DELETE".

(** The body of each method: the call of [self._request] it makes. *)
Definition call_of (op : operation) : api_call :=
  match op with
  | list_jobs kw => mkCall GET (lit "/jobs") VNone (Some kw)
  | get_job id => mkCall GET (lit "/jobs/" ++ id) VNone None
  | create_job body => mkCall POST (lit "/jobs") body None
  | update_job id body => mkCall PUT (lit "/jobs/" ++ id) body None
  | delete_job id => mkCall DELETE (lit "/jobs/" ++ id) VNone None
  | get_related_jobs id kw =>
    mkCall GET (lit "/jobs/" ++ id ++ lit "/related") VNone (Some kw)
  | list_referrals kw => mkCall GET (lit "/referrals") VNone (Some kw)
  | get_referral id => mkCall GET (lit "/referrals/" ++ id) VNone None
  | create_referral body => mkCall POST (lit "/referrals") body None
  | update_referral_status id status notes =>
    mkCall PATCH (lit "/referrals/" ++ id ++ lit "/status")
      (VDict ((lit "status", VStr status)
              :: (if given notes then [(lit "notes", VStr (default [] notes))]
                  else [])))
      None
  | get_referral_tracking id =>
    mkCall GET (lit "/referrals/" ++ id ++ lit "/tracking") VNone None
  | list_companies kw => mkCall GET (lit "/companies") VNone (Some kw)
  | get_company id => mkCall GET (lit "/companies/" ++ id) VNone None
  | get_company_jobs id kw =>
    mkCall GET (lit "/companies/" ++ id ++ lit "/jobs") VNone (Some kw)
  | create_company body => mkCall POST (lit "/companies") body None
  | update_company id body => mkCall PUT (lit "/companies/" ++ id) body None
  | get_current_user => mkCall GET (lit "/users/me") VNone None
  | update_current_user body => mkCall PUT (lit "/users/me") body None
  | get_current_user_referrals kw =>
    mkCall GET (lit "/users/me/referrals") VNone (Some kw)
  | get_current_user_stats => mkCall GET (lit "/users/me/stats") VNone None
  | get_user id => mkCall GET (lit "/users/" ++ id) VNone None
  | verify_key => mkCall POST (lit "/auth/verify") VNone None
  | list_api_keys => mkCall GET (lit "/auth/apikeys") VNone None
  | get_api_key id => mkCall GET (lit "/auth/apikeys/" ++ id) VNone None
  | create_api_key body => mkCall POST (lit "/auth/apikey") body None
  | update_api_key id body => mkCall PUT (lit "/auth/apikeys/" ++ id) body None
  | revoke_api_key id reason =>
    mkCall DELETE (lit "/auth/apikeys/" ++ id)
      (if given reason then VDict [(lit "reason", VStr (default [] reason))]
       else VDict [])
      None
  | rotate_api_key id =>
    mkCall POST (lit "/auth/apikeys/" ++ id ++ lit "/rotate") VNone None
  | get_api_key_usage id kw =>
    mkCall GET (lit "/auth/apikeys/" ++ id ++ lit "/usage") VNone (Some kw)
  | get_permissions => mkCall GET (lit "/auth/permissions") VNone None
  | list_webhooks kw => mkCall GET (lit "/webhooks") VNone (Some kw)
  | get_webhook id => mkCall GET (lit "/webhooks/" ++ id) VNone None
  | create_webhook body => mkCall POST (lit "/webhooks") body None
  | update_webhook id body => mkCall PUT (lit "/webhooks/" ++ id) body None
  | delete_webhook id => mkCall DELETE (lit "/webhooks/" ++ id) VNone None
  | test_webhook id =>
    mkCall POST (lit "/webhooks/" ++ id ++ lit "/test") VNone None
  | get_webhook_deliveries id kw =>
    mkCall GET (lit "/webhooks/" ++ id ++ lit "/deliveries") VNone (Some kw)
  | get_delivery wid did =>
    mkCall GET (lit "/webhooks/" ++ wid ++ lit "/deliveries/" ++ did) VNone None
  | get_webhook_events => mkCall GET (lit "/webhooks/events/list") VNone None
  | health => mkCall GET (lit "/health") VNone None
  end.

Section Wire.

(** [session.request] on given arguments: [urljoin] and the network. *)
Variable wire : sent_request -> nat -> outcome Response.

(** The pauses of the loop, as in [_request]. *)
Variable pause : nat -> Q -> option exn.

(** A resource method called on a client. *)
Definition perform (self : Session) (op : operation)
  : list io * outcome value :=
  _request (wire (request_args self (call_of op))) pause (retry self).

End Wire.

Definition no_slash (s : pystr) : Prop :=
  List.forallb (fun c => negb (c =? slash)) s = true.

End Resources.

(* ===================================================================== *)
(** * Shapes of traces and sums of pauses *)
(* ===================================================================== *)

Module Shape.
Import Py Client Policy.




End Shape.

Module LoopScenario.
Import Py Client ClientScenario.

Definition client0 : TRMClient := {| max_retries := 0; retry_delay := 1 |}.

(** The transport call is interrupted from the keyboard. *)
Definition interrupted : outcome Response :=
  Raise (Exn BaseExceptionOnly (lit "KeyboardInterrupt")).

(** A 200 whose body is not JSON, with a [json()] that raises a
    [ValueError] that is no [RequestException]. *)
Definition garbled : Response :=
  respond 200 (blit "<html>") (Raise (Exn OtherException (lit "Expecting value"))).

End LoopScenario.

Module SignatureShape.

(** A character of ['0'..'9'] or ['a'..'f']. *)
Definition is_lower_hex (c : N) : bool :=
  ((48 <=? c) && (c <=? 57)) || ((97 <=? c) && (c <=? 102)).

End SignatureShape.

Module Utf8Tests.
Import Py Utf8.
(** U+00E9, U+20AC and U+1F600 in two, three and four bytes. *)
Example decode_multibyte :
  decode [0xC3; 0xA9; 0xE2; 0x82; 0xAC; 0xF0; 0x9F; 0x98; 0x80]
  = Some [0xE9; 0x20AC; 0x1F600].
Proof. vm_compute. reflexivity. Qed.
Example encode_multibyte :
  encode [0xE9; 0x20AC; 0x1F600]
  = Some [0xC3; 0xA9; 0xE2; 0x82; 0xAC; 0xF0; 0x9F; 0x98; 0x80].
Proof. vm_compute. reflexivity. Qed.
(** An overlong form, an encoded surrogate, a code point above U+10FFFF, a
    lone continuation byte and a truncated sequence are all refused. *)
Example decode_refuses :
  decode [0xC0; 0x80] = None /\ decode [0xED; 0xA0; 0x80] = None /\
  decode [0xF4; 0x90; 0x80; 0x80] = None /\ decode [0x80] = None /\
  decode [0xE2; 0x82] = None /\ decode [0xFF] = None.
Proof. vm_compute. auto 10. Qed.
Example encode_refuses_surrogate : encode [0xD800] = None.
Proof. vm_compute. reflexivity. Qed.
End Utf8Tests.

Module Sha256Tests.
Import Py Sha256.
Example round_constants :
  List.length K = 64%nat /\ List.nth 0 K 0 = 0x428a2f98 /\ List.nth 63 K 0 = 0xc67178f2.
Proof. vm_compute. auto. Qed.
Example initial_hash :
  List.length H0 = 8%nat /\ List.nth 0 H0 0 = 0x6a09e667 /\ List.nth 7 H0 0 = 0x5be0cd19.
Proof. vm_compute. auto. Qed.
Example sha_abc : hex (sha256 (blit "abc")) =
  lit "ba7816bf8f01cfea414140de5dae2223b00361a396177a9cb410ff61f20015ad".
Proof. vm_compute. reflexivity. Qed.
Example hmac_rfc4231_2 : hexdigest (blit "Jefe") (blit "what do ya want for nothing?") =
  lit "5bdcc146bf60754e6a042426089575c75a003f089d2739839dec58b964ec3843".
Proof. vm_compute. reflexivity. Qed.
Example hmac_long : hexdigest (List.repeat "k"%byte 100) (List.repeat "x"%byte 200) =
  lit "e326f00ce14194bb85e2683fe9b1a78851753f77479303f94c2c3cd1998bdda3".
Proof. vm_compute. reflexivity. Qed.
End Sha256Tests.

(* ===================================================================== *)
(** * Facts about the codecs *)
(* ===================================================================== *)

Module Utf8Facts.
Import Py Utf8.

Lemma divmod_small (k a b : N) :
  b < k -> (a * k + b) / k = a /\ (a * k + b) mod k = b.
Proof.
  intros Hb. split; symmetry.
  - apply (N.div_unique _ k a b); lia.
  - apply (N.mod_unique _ k a b); lia.
Qed.

Lemma is_cont_range b : is_cont b = true -> 0x80 <= b /\ b - 0x80 < 64.
Proof.
  unfold is_cont. intros H. apply andb_prop in H as [Ha Hb].
  apply N.leb_le in Ha, Hb. lia.
Qed.

Ltac split_andb :=
  repeat match goal with
  | H : _ && _ = true |- _ => apply andb_prop in H as [? ?]
  end.

Lemma encode_two b0 b1 :
  0xC0 <= b0 -> b0 < 0xE0 -> is_cont b1 = true ->
  0x80 <= (b0 - 0xC0) * 64 + (b1 - 0x80) ->
  encode_char ((b0 - 0xC0) * 64 + (b1 - 0x80)) = Some [b0; b1].
Proof.
  intros H0 H1 Hc Hr. apply is_cont_range in Hc as [Ha Hb].
  destruct (divmod_small 64 (b0 - 0xC0) (b1 - 0x80)) as [Hq Hm]; [lia|].
  unfold encode_char.
  set (c := (b0 - 0xC0) * 64 + (b1 - 0x80)) in *.
  destruct (N.ltb_spec c 0x80); [lia|].
  destruct (N.ltb_spec c 0x800); [|subst c; lia].
  rewrite Hq, Hm. repeat f_equal; lia.
Qed.

Lemma encode_three b0 b1 b2 :
  0xE0 <= b0 -> b0 < 0xF0 -> is_cont b1 = true -> is_cont b2 = true ->
  let c := (b0 - 0xE0) * 4096 + (b1 - 0x80) * 64 + (b2 - 0x80) in
  0x800 <= c -> is_surrogate c = false ->
  encode_char c = Some [b0; b1; b2].
Proof.
  intros H0 H1 Hc1 Hc2 c Hr Hs.
  apply is_cont_range in Hc1 as [Ha1 Hb1]. apply is_cont_range in Hc2 as [Ha2 Hb2].
  assert (Hc : c = ((b0 - 0xE0) * 64 + (b1 - 0x80)) * 64 + (b2 - 0x80))
    by (subst c; lia).
  destruct (divmod_small 64 ((b0 - 0xE0) * 64 + (b1 - 0x80)) (b2 - 0x80))
    as [Hq Hm]; [lia|]. rewrite <- Hc in Hq, Hm.
  destruct (divmod_small 64 (b0 - 0xE0) (b1 - 0x80)) as [Hq' Hm']; [lia|].
  assert (Hd : c / 4096 = b0 - 0xE0).
  { change 4096 with (64 * 64). rewrite <- N.Div0.div_div, Hq. exact Hq'. }
  unfold encode_char. rewrite Hs.
  destruct (N.ltb_spec c 0x80); [lia|].
  destruct (N.ltb_spec c 0x800); [lia|].
  destruct (N.ltb_spec c 0x10000); [|lia].
  rewrite Hd, Hq, Hm, Hm'. repeat f_equal; lia.
Qed.

Lemma encode_four b0 b1 b2 b3 :
  0xF0 <= b0 -> is_cont b1 = true -> is_cont b2 = true -> is_cont b3 = true ->
  let c := (b0 - 0xF0) * 262144 + (b1 - 0x80) * 4096
           + (b2 - 0x80) * 64 + (b3 - 0x80) in
  0x10000 <= c -> c < 0x110000 ->
  encode_char c = Some [b0; b1; b2; b3].
Proof.
  intros H0 Hc1 Hc2 Hc3 c Hr Hu.
  apply is_cont_range in Hc1 as [Ha1 Hb1]. apply is_cont_range in Hc2 as [Ha2 Hb2].
  apply is_cont_range in Hc3 as [Ha3 Hb3].
  set (q2 := (b0 - 0xF0) * 64 + (b1 - 0x80)).
  set (q1 := q2 * 64 + (b2 - 0x80)).
  assert (Hc : c = q1 * 64 + (b3 - 0x80)) by (subst c q1 q2; lia).
  destruct (divmod_small 64 q1 (b3 - 0x80)) as [Hq Hm]; [lia|].
  rewrite <- Hc in Hq, Hm.
  destruct (divmod_small 64 q2 (b2 - 0x80)) as [Hq1 Hm1]; [lia|].
  fold q1 in Hq1, Hm1.
  destruct (divmod_small 64 (b0 - 0xF0) (b1 - 0x80)) as [Hq2 Hm2]; [lia|].
  fold q2 in Hq2, Hm2.
  assert (Hd1 : c / 4096 = q2).
  { change 4096 with (64 * 64). by rewrite <- N.Div0.div_div, Hq. }
  assert (Hd2 : c / 262144 = b0 - 0xF0).
  { change 262144 with (4096 * 64). by rewrite <- N.Div0.div_div, Hd1. }
  unfold encode_char.
  destruct (N.ltb_spec c 0x80); [lia|].
  destruct (N.ltb_spec c 0x800); [lia|].
  destruct (N.ltb_spec c 0x10000); [lia|].
  destruct (N.ltb_spec c 0x110000); [|lia].
  rewrite Hd2, Hd1, Hq, Hm, Hm1, Hm2. repeat f_equal; lia.
Qed.

(** Decoding accepts only what encoding produces: re-encoding the decoded
    text gives the bytes back. *)
Lemma decode_encode_bounded (n : nat) : forall bs s,
  (List.length bs <= n)%nat -> decode bs = Some s -> encode s = Some bs.
Proof.
  induction n as [|n IH]; intros bs s Hlen Hd.
  - destruct bs; simpl in *; [by injection Hd as <- | lia].
  - destruct bs as [|b0 r0]; [by injection Hd as <-|].
    simpl in Hd, Hlen.
    destruct (N.ltb_spec b0 0x80) as [L1|L1].
    { destruct (decode r0) as [s'|] eqn:E; [|done]. injection Hd as <-.
      simpl. unfold encode_char.
      destruct (N.ltb_spec b0 0x80); [|lia].
      by rewrite (IH r0 s'); [|lia|]. }
    destruct (N.ltb_spec b0 0xC0) as [L2|L2]; [done|].
    destruct (N.ltb_spec b0 0xE0) as [L3|L3].
    { destruct r0 as [|b1 r1]; [done|].
      destruct (is_cont b1 && _) eqn:G; [|done]. split_andb.
      destruct (decode r1) as [s'|] eqn:E; [|done]. injection Hd as <-.
      simpl in *. rewrite encode_two; try done; [|by apply N.leb_le].
      by rewrite (IH r1 s'); [|lia|]. }
    destruct (N.ltb_spec b0 0xF0) as [L4|L4].
    { destruct r0 as [|b1 [|b2 r2]]; try done.
      destruct (is_cont b1 && _ && _ && _) eqn:G; [|done]. split_andb.
      destruct (decode r2) as [s'|] eqn:E; [|done]. injection Hd as <-.
      simpl in *. rewrite encode_three; try done;
        [|by apply N.leb_le|by apply negb_true_iff].
      by rewrite (IH r2 s'); [|lia|]. }
    destruct (N.ltb_spec b0 0xF8) as [L5|L5]; [|done].
    destruct r0 as [|b1 [|b2 [|b3 r3]]]; try done.
    destruct (is_cont b1 && _ && _ && _ && _) eqn:G; [|done]. split_andb.
    destruct (decode r3) as [s'|] eqn:E; [|done]. injection Hd as <-.
    simpl in *. rewrite encode_four; try done;
      [|by apply N.leb_le|by apply N.ltb_lt].
    by rewrite (IH r3 s'); [|lia|].
Qed.

Lemma decode_encode bs s : decode bs = Some s -> encode s = Some bs.
Proof. apply (decode_encode_bounded (List.length bs)). lia. Qed.

Lemma encode_app a b :
  encode (a ++ b) =
  match encode a, encode b with
  | Some x, Some y => Some (x ++ y)
  | _, _ => None
  end.
Proof.
  induction a as [|c a IH]; simpl.
  - by destruct (encode b).
  - rewrite IH. destruct (encode_char c), (encode a), (encode b); try done.
    by rewrite <- List.app_assoc.
Qed.

Lemma byte_of_to_N b : byte_of_N (Byte.to_N b) = b.
Proof. unfold byte_of_N. by rewrite Byte.of_to_N. Qed.

Lemma bytes_of_N_of_bytes b : bytes_of_N (N_of_bytes b) = b.
Proof.
  unfold bytes_of_N, N_of_bytes. rewrite List.map_map.
  induction b as [|x b IH]; simpl; [done|]. by rewrite byte_of_to_N, IH.
Qed.

End Utf8Facts.

Module WebhookFacts.
Import Py Utf8 Utf8Facts Webhooks Documented.

Lemma hex_byte_chars (x : byte) :
  let a := Sha256.hex_digit (Byte.to_N x / 16) in
  let b := Sha256.hex_digit (Byte.to_N x mod 16) in
  (a <? 128) && (b <? 128) && negb (eq_sign =? a) && negb (eq_sign =? b) = true.
Proof. destruct x; vm_compute; reflexivity. Qed.

Lemma hex_is_ascii (b : bytes) : is_ascii (Sha256.hex b) = true.
Proof.
  induction b as [|x b IH]; [done|].
  pose proof (hex_byte_chars x) as H. cbv zeta in H. split_andb.
  unfold Sha256.hex in *. simpl. by rewrite IH, H, H2.
Qed.


Lemma is_ascii_app a b : is_ascii (a ++ b) = is_ascii a && is_ascii b.
Proof. apply List.forallb_app. Qed.

(** Against an ASCII digest, [compare_digest] is equality, with a
    [TypeError] for a non-ASCII argument. *)
Lemma compare_digest_ascii a b :
  is_ascii b = true ->
  compare_digest a b = Ok (pystr_eqb a b) \/
  (exists m, compare_digest a b = Raise (Exn TypeError m)) /\ a <> b.
Proof.
  intros Hb. unfold compare_digest. rewrite Hb.
  destruct (is_ascii a) eqn:Ha; simpl; [by left|].
  right. split; [by eexists|]. intros ->. congruence.
Qed.

Lemma pystr_eqb_eq (a b : pystr) : pystr_eqb a b = true <-> a = b.
Proof.
  revert b; induction a as [|x a IH]; intros [|y b]; simpl; split;
    try congruence; try done.
  - intros H. apply andb_prop in H as [Hx Hab].
    apply N.eqb_eq in Hx. apply IH in Hab. congruence.
  - intros H. injection H as -> ->. rewrite N.eqb_refl. simpl. by apply IH.
Qed.





(** Once the three codec calls succeed, the [try] suite is the comparison
    with the digest of timestamp bytes, ["."], and the body as received. *)
Lemma verify_try_text self payload signature timestamp text lk lt :
  decode (N_of_bytes payload) = Some text ->
  encode (secret self) = Some lk ->
  encode timestamp = Some lt ->
  verify_signature_try self payload signature timestamp =
  compare_digest (provided_part signature)
    (Sha256.hexdigest (bytes_of_N lk) (bytes_of_N lt ++ blit "." ++ payload)).
Proof.
  intros Hd Hk Ht. unfold verify_signature_try, bytes_decode, str_encode.
  rewrite Hd, Hk. simpl.
  rewrite encode_app, Ht. cbn [encode].
  change (encode_char dot) with (Some [dot]).
  rewrite (decode_encode _ _ Hd). cbn [bind app].
  unfold bytes_of_N at 2. rewrite List.map_app. cbn [List.map].
  fold (bytes_of_N lt). fold (bytes_of_N (N_of_bytes payload)).
  by rewrite bytes_of_N_of_bytes.
Qed.

Lemma verify_try_no_text self payload signature timestamp :
  decode (N_of_bytes payload) = None ->
  exists m, verify_signature_try self payload signature timestamp
            = Raise (Exn UnicodeDecodeError m).
Proof.
  intros Hd. unfold verify_signature_try, bytes_decode. rewrite Hd. by eexists.
Qed.

Lemma verify_try_bad_str self payload signature timestamp text :
  decode (N_of_bytes payload) = Some text ->
  encode (secret self) = None \/ encode timestamp = None ->
  exists m, verify_signature_try self payload signature timestamp
            = Raise (Exn UnicodeEncodeError m).
Proof.
  intros Hd H. unfold verify_signature_try, bytes_decode, str_encode.
  rewrite Hd. simpl. destruct (encode (secret self)) eqn:Hk; [|by eexists].
  destruct H as [H|H]; [done|]. simpl. rewrite encode_app, H. by eexists.
Qed.

(** Whatever the [try] suite raises is an [Exception]. *)
Lemma verify_try_raises_Exception self payload signature timestamp e :
  verify_signature_try self payload signature timestamp = Raise e ->
  is_Exception e = true.
Proof.
  destruct (decode (N_of_bytes payload)) as [text|] eqn:Hd.
  - destruct (encode (secret self)) as [lk|] eqn:Hk;
      [destruct (encode timestamp) as [lt|] eqn:Ht|].
    + rewrite (verify_try_text _ _ _ _ _ _ _ Hd Hk Ht).
      unfold compare_digest. destruct (_ && _); [done|]. by intros [= <-].
    + destruct (verify_try_bad_str self payload signature timestamp text Hd)
        as [m ->]; [by right|]. by intros [= <-].
    + destruct (verify_try_bad_str self payload signature timestamp text Hd)
        as [m ->]; [by left|]. by intros [= <-].
  - destruct (verify_try_no_text self payload signature timestamp Hd) as [m ->].
    by intros [= <-].
Qed.

Lemma verify_signature_bool self payload signature timestamp :
  verify_signature self payload signature timestamp = Ok true \/
  verify_signature self payload signature timestamp = Ok false.
Proof.
  unfold verify_signature.
  destruct (verify_signature_try self payload signature timestamp) as [[]|e] eqn:E;
    [by left|by right|].
  rewrite (verify_try_raises_Exception _ _ _ _ _ E). by right.
Qed.

Lemma verify_signature_true_iff self payload signature timestamp :
  verify_signature self payload signature timestamp = Ok true <->
  valid_utf8 payload /\
  documented_signature (secret self) timestamp payload (provided_part signature).
Proof.
  unfold valid_utf8, documented_signature, verify_signature, str_encode.
  destruct (decode (N_of_bytes payload)) as [text|] eqn:Hd.
  2:{ destruct (verify_try_no_text self payload signature timestamp Hd) as [m ->].
      simpl. split; [done|]. by intros [[? ?] _]. }
  destruct (encode (secret self)) as [lk|] eqn:Hk.
  2:{ destruct (verify_try_bad_str self payload signature timestamp text Hd)
        as [m ->]; [by left|]. simpl. split; [done|].
      by intros [_ (? & ? & ? & _)]. }
  destruct (encode timestamp) as [lt|] eqn:Ht.
  2:{ destruct (verify_try_bad_str self payload signature timestamp text Hd)
        as [m ->]; [by right|]. simpl. split; [done|].
      by intros [_ (? & ? & _ & ? & _)]. }
  rewrite (verify_try_text _ _ _ _ _ _ _ Hd Hk Ht).
  set (expected := Sha256.hexdigest _ _).
  destruct (compare_digest_ascii (provided_part signature) expected)
    as [-> | [[m ->] Hne]]; [apply hex_is_ascii| |].
  - split.
    + intros [= H]. apply pystr_eqb_eq in H. split; [by eexists|].
      by exists (bytes_of_N lk), (bytes_of_N lt).
    + intros [_ (key & t & [= <-] & [= <-] & ->)].
      f_equal. by apply pystr_eqb_eq.
  - simpl. split; [done|].
    intros [_ (key & t & [= <-] & [= <-] & H)]. done.
Qed.

End WebhookFacts.

(* ===================================================================== *)
(** * Signature verification *)
(* ===================================================================== *)

Module WebhookClaims.
Import Py Utf8 Utf8Facts Webhooks Documented WebhookFacts Scenario.

(** The scenario of the specification: the digest is the one any
    HMAC-SHA256 implementation gives, and the header is accepted. *)
Example scenario_digest :
  sign whsec stamp evt_body =
  lit "v1=c89214b5b5da833daed6f0b8c5bb6bd58cea9022bd80ccc78230f3942d632925".
Proof. vm_compute. reflexivity. Qed.

Example scenario_accepted :
  verify_signature (init whsec) evt_body (sign whsec stamp evt_body) stamp = Ok true.
Proof. vm_compute. reflexivity. Qed.

(** One inverted bit in the body, the timestamp or the secret. *)
Example scenario_mutations :
  verify_signature (init whsec) (flip_bit 3 0 evt_body)
    (sign whsec stamp evt_body) stamp = Ok false /\
  verify_signature (init whsec) evt_body
    (sign whsec stamp evt_body) (<[9%nat := 49]> stamp) = Ok false /\
  verify_signature (init (<[0%nat := 118]> whsec)) evt_body
    (sign whsec stamp evt_body) stamp = Ok false.
Proof. vm_compute. auto. Qed.




(** C6.  [verify_signature] returns a boolean for every payload, signature
    and timestamp and never raises; whenever a step of the [try] suite
    raises - decoding a payload that is not UTF-8, encoding the secret or
    the timestamp, comparing a non-ASCII signature - the result is [False]. *)
Theorem verify_signature_never_raises
    (self : WebhookHandler) (payload : bytes) (signature timestamp : pystr) :
  exists b : bool,
    verify_signature self payload signature timestamp = Ok b /\
    (forall e, verify_signature_try self payload signature timestamp = Raise e ->
               b = false) /\
    (~ valid_utf8 payload -> b = false) /\
    (encode (secret self) = None -> b = false) /\
    (encode timestamp = None -> b = false) /\
    (is_ascii (provided_part signature) = false -> b = false).
Proof.
  destruct (verify_signature_bool self payload signature timestamp) as [H|H].
  2:{ exists false. by repeat split. }
  exists true. split; [done|].
  pose proof H as H'. apply verify_signature_true_iff in H' as [Hv Hd].
  split.
  { intros e He. unfold verify_signature in H. rewrite He in H.
    by destruct (is_Exception e). }
  split; [done|].
  destruct Hd as (key & t & Hk & Ht & Hh). unfold str_encode in Hk, Ht.
  split; [intros E; by rewrite E in Hk|].
  split; [intros E; by rewrite E in Ht|].
  intros E. rewrite Hh in E. unfold Sha256.hexdigest in E.
  by rewrite hex_is_ascii in E.
Qed.

Lemma verify_signature_never_raises_witness :
  verify_signature (init whsec) [xff] (lit "v1=00") stamp = Ok false.
Proof.
  destruct (verify_signature_never_raises (init whsec) [xff] (lit "v1=00") stamp)
    as (b & Hb & _ & Hv & _).
  rewrite Hb. f_equal. apply Hv.
  intros [s H]. vm_compute in H. discriminate.
Defined.

End WebhookClaims.

(* ===================================================================== *)
(** * Dispatch *)
(* ===================================================================== *)

Module DispatchFacts.
Import Py Webhooks Documented.

Lemma truthy_false_iff h : truthy h = false <-> absent_or_empty h.
Proof.
  unfold absent_or_empty. destruct h as [[|c s]|]; simpl; split; try tauto;
    try done; by intros [|].
Qed.

Lemma truthy_true_iff h : truthy h = true <-> exists s, h = Some s /\ s <> [].
Proof.
  destruct h as [[|c s]|]; simpl; split; try done.
  - by intros (s & [= <-] & H).
  - intros _. by eexists.
  - by intros (s & ? & _).
Qed.

Section WithJson.
Variable json_loads : bytes -> outcome value.
Variable str_of : exn -> outcome pystr.

(** With any of the three headers absent or empty nothing else happens. *)
Lemma handle_raw_missing self headers body :
  absent_or_empty (headers !! lit "X-TRM-Signature") \/
  absent_or_empty (headers !! lit "X-TRM-Timestamp") \/
  absent_or_empty (headers !! lit "X-TRM-Event") ->
  handle_raw json_loads str_of self headers body =
  ([], Ok (error_result (lit "Missing required headers"))).
Proof.
  intros H. unfold handle_raw. cbv zeta.
  rewrite <- !truthy_false_iff in H.
  assert (List.forallb truthy
            [headers !! lit "X-TRM-Signature"; headers !! lit "X-TRM-Timestamp";
             headers !! lit "X-TRM-Event"] = false) as ->; [|done].
  cbn [List.forallb]. destruct H as [-> | [-> | ->]]; [done| |].
  - by rewrite andb_false_r.
  - by rewrite !andb_false_r.
Qed.

(** With the three headers in place, dispatch is the chain of checks on
    their values. *)
Lemma handle_raw_present self headers body sg ts ev :
  headers !! lit "X-TRM-Signature" = Some sg ->
  headers !! lit "X-TRM-Timestamp" = Some ts ->
  headers !! lit "X-TRM-Event" = Some ev ->
  sg <> [] -> ts <> [] -> ev <> [] ->
  handle_raw json_loads str_of self headers body =
  match verify_signature self body sg ts with
  | Raise e => ([CheckSignature body sg ts], Raise e)
  | Ok false =>
    ([CheckSignature body sg ts], Ok (error_result (lit "Invalid signature")))
  | Ok true =>
    match json_loads body with
    | Raise e =>
      ([CheckSignature body sg ts; ParseJson body],
       if is_JSONDecodeError e then Ok (error_result (lit "Invalid JSON payload"))
       else Raise e)
    | Ok data =>
      match handlers self !! ev with
      | Some h =>
        match truth h with
        | Raise e => ([CheckSignature body sg ts; ParseJson body], Raise e)
        | Ok false =>
          ([CheckSignature body sg ts; ParseJson body], Ok no_handler_result)
        | Ok true =>
          ([CheckSignature body sg ts; ParseJson body; CallHandler ev data],
           match run h data with
           | Ok r => Ok (success_result r)
           | Raise e =>
             if is_Exception e then
               match str_of e with
               | Ok s => Ok (error_result s)
               | Raise e' => Raise e'
               end
             else Raise e
           end)
        end
      | None => ([CheckSignature body sg ts; ParseJson body], Ok no_handler_result)
      end
    end
  end.
Proof.
  intros Hs Ht He Ns Nt Ne. unfold handle_raw. cbv zeta. rewrite Hs, Ht, He.
  destruct sg as [|c1 sg]; [done|]. destruct ts as [|c2 ts]; [done|].
  destruct ev as [|c3 ev]; [done|].
  cbn [List.forallb truthy andb negb the_str default app].
  destruct (verify_signature _ _ _ _) as [[]|]; [|done|done].
  destruct (json_loads body) as [data|e]; [|by destruct (is_JSONDecodeError e)].
  destruct (handlers self !! _) as [h|]; [|done].
  destruct (truth h) as [[]|]; [|done|done].
  destruct (run h data) as [r|e]; [done|].
  destruct (is_Exception e); [|done]. by destruct (str_of e).
Qed.

End WithJson.
End DispatchFacts.

Module DispatchClaims.
Import Py Webhooks Documented Scenario DispatchFacts.

(** C2, as stated, fails: a signature header that is present but empty is
    not missing and does not verify, yet the answer is "Missing required
    headers" and the signature is never checked. *)
Lemma empty_header_reported_missing :
  let headers := headers_of [] stamp (lit "job.created") in
  headers !! lit "X-TRM-Signature" = Some [] /\
  headers !! lit "X-TRM-Timestamp" = Some stamp /\
  headers !! lit "X-TRM-Event" = Some (lit "job.created") /\
  verify_signature (init whsec) evt_body [] stamp = Ok false /\
  handle_raw loads_evt str_first_arg (init whsec) headers evt_body =
    ([], Ok (error_result (lit "Missing required headers"))) /\
  error_result (lit "Missing required headers")
    <> error_result (lit "Invalid signature").
Proof. vm_compute. repeat split; try reflexivity. discriminate. Qed.

Section WithJson.
Variable json_loads : bytes -> outcome value.
Variable str_of : exn -> outcome pystr.

(** C2 (amended).  [handle_raw] checks in the order headers, signature,
    JSON, handler.  If any of the three headers is absent or empty it
    answers "Missing required headers" and takes no other step.  With the
    three present and non-empty: a failed signature check gives "Invalid
    signature" whatever the body is; after a passed check, a body that
    [json.loads] rejects with [JSONDecodeError] gives "Invalid JSON
    payload"; after a parsed body, an event without handler gives the
    "No handler for event" success. *)
Theorem handle_raw_check_order
    (self : WebhookHandler) (headers : gmap pystr pystr) (body : bytes) :
  (absent_or_empty (headers !! lit "X-TRM-Signature") \/
   absent_or_empty (headers !! lit "X-TRM-Timestamp") \/
   absent_or_empty (headers !! lit "X-TRM-Event") ->
   handle_raw json_loads str_of self headers body =
   ([], Ok (error_result (lit "Missing required headers"))))
  /\
  (forall sg ts ev,
     headers !! lit "X-TRM-Signature" = Some sg ->
     headers !! lit "X-TRM-Timestamp" = Some ts ->
     headers !! lit "X-TRM-Event" = Some ev ->
     sg <> [] -> ts <> [] -> ev <> [] ->
     (verify_signature self body sg ts = Ok false ->
      handle_raw json_loads str_of self headers body =
      ([CheckSignature body sg ts], Ok (error_result (lit "Invalid signature"))))
     /\
     (verify_signature self body sg ts = Ok true ->
      forall e, json_loads body = Raise e -> is_JSONDecodeError e = true ->
      handle_raw json_loads str_of self headers body =
      ([CheckSignature body sg ts; ParseJson body],
       Ok (error_result (lit "Invalid JSON payload"))))
     /\
     (verify_signature self body sg ts = Ok true ->
      forall data, json_loads body = Ok data ->
      handlers self !! ev = None ->
      handle_raw json_loads str_of self headers body =
      ([CheckSignature body sg ts; ParseJson body], Ok no_handler_result))).
Proof.
  split; [apply handle_raw_missing|].
  intros sg ts ev Hs Ht He Ns Nt Ne.
  rewrite (handle_raw_present json_loads str_of self headers body sg ts ev) by done.
  split; [by intros ->|]. split.
  - intros Hv e Hj He'. by rewrite Hv, Hj, He'.
  - intros Hv data Hj Hh. by rewrite Hv, Hj, Hh.
Qed.


End WithJson.


Lemma handle_raw_check_order_witness :
  handle_raw loads_evt str_first_arg (init whsec)
    (delete (lit "X-TRM-Timestamp")
       (headers_of (sign whsec stamp evt_body) stamp (lit "job.created")))
    evt_body
  = ([], Ok (error_result (lit "Missing required headers")))
  /\
  handle_raw loads_evt str_first_arg (init whsec)
    (headers_of (lit "v1=00") stamp (lit "job.created")) not_json
  = ([CheckSignature not_json (lit "v1=00") stamp],
     Ok (error_result (lit "Invalid signature")))
  /\
  handle_raw loads_evt str_first_arg (init whsec)
    (headers_of (sign whsec stamp not_json) stamp (lit "job.created")) not_json
  = ([CheckSignature not_json (sign whsec stamp not_json) stamp; ParseJson not_json],
     Ok (error_result (lit "Invalid JSON payload")))
  /\
  handle_raw loads_evt str_first_arg (init whsec)
    (headers_of (sign whsec stamp evt_body) stamp (lit "job.created")) evt_body
  = ([CheckSignature evt_body (sign whsec stamp evt_body) stamp; ParseJson evt_body],
     Ok no_handler_result).
Proof.
  split; [|split; [|split]].
  - apply (proj1 (handle_raw_check_order loads_evt str_first_arg (init whsec) _ evt_body)).
    right; left; left. vm_compute. reflexivity.
  - destruct (proj2 (handle_raw_check_order loads_evt str_first_arg (init whsec)
                       (headers_of (lit "v1=00") stamp (lit "job.created")) not_json)
                (lit "v1=00") stamp (lit "job.created")) as (HA & _);
      [vm_compute; reflexivity | vm_compute; reflexivity | vm_compute; reflexivity
      | discriminate | discriminate | discriminate | ].
    apply HA. vm_compute. reflexivity.
  - destruct (proj2 (handle_raw_check_order loads_evt str_first_arg (init whsec)
                       (headers_of (sign whsec stamp not_json) stamp (lit "job.created")) not_json)
                (sign whsec stamp not_json) stamp (lit "job.created"))
      as (_ & HB & _);
      [vm_compute; reflexivity | vm_compute; reflexivity | vm_compute; reflexivity
      | discriminate | discriminate | discriminate | ].
    assert (HV : verify_signature (init whsec) not_json
                   (sign whsec stamp not_json) stamp = Ok true).
    { vm_compute. reflexivity. }
    apply (HB HV (Exn JSONDecodeError (lit "Expecting value"))).
    + vm_compute. reflexivity.
    + reflexivity.
  - destruct (proj2 (handle_raw_check_order loads_evt str_first_arg (init whsec)
                       (headers_of (sign whsec stamp evt_body) stamp (lit "job.created")) evt_body)
                (sign whsec stamp evt_body) stamp (lit "job.created"))
      as (_ & _ & HC);
      [vm_compute; reflexivity | vm_compute; reflexivity | vm_compute; reflexivity
      | discriminate | discriminate | discriminate | ].
    assert (HV : verify_signature (init whsec) evt_body
                   (sign whsec stamp evt_body) stamp = Ok true).
    { vm_compute. reflexivity. }
    apply (HC HV evt_data).
    + vm_compute. reflexivity.
    + vm_compute. reflexivity.
Defined.


Section Equivalence.
Variable json_loads : bytes -> outcome value.
Variable str_of : exn -> outcome pystr.

(** C10.  [handle] and [handle_raw] agree: when the request's header
    lookup gives what the mapping gives for the three X-TRM-* names and the
    request's data is the body, the two return the same result after the
    same steps. *)
Theorem handle_agrees_with_handle_raw
    (self : WebhookHandler) (request : Request)
    (headers : gmap pystr pystr) (body : bytes) :
  headers_get request (lit "X-TRM-Signature") = headers !! lit "X-TRM-Signature" ->
  headers_get request (lit "X-TRM-Timestamp") = headers !! lit "X-TRM-Timestamp" ->
  headers_get request (lit "X-TRM-Event") = headers !! lit "X-TRM-Event" ->
  get_data request = body ->
  handle json_loads str_of self request = handle_raw json_loads str_of self headers body.
Proof.
  intros Hs Ht He Hb. unfold handle, handle_raw. cbv zeta.
  rewrite Hs, Ht, He, Hb. reflexivity.
Qed.

(** C9.  Calling a method changes the registry only if the method is
    [on]; [on event h] binds [event] to [h], replacing what was bound
    before, and leaves every other name and the secret as they were.  A
    name has at most one handler. *)
Theorem registry_changed_by_on_only (self : WebhookHandler) (m : method) :
  let self' := fst (call json_loads str_of self m) in
  match m with
  | M_on event h =>
    handlers self' !! event = Some h /\
    (forall other, other <> event ->
       handlers self' !! other = handlers self !! other) /\
    secret self' = secret self /\
    (forall h', on (on self event h') event h = on self event h)
  | _ => self' = self
  end
  /\ (forall event h1 h2,
        handlers self' !! event = Some h1 -> handlers self' !! event = Some h2 ->
        h1 = h2).
Proof.
  split.
  - destruct m; try reflexivity. cbn [call fst on handlers secret].
    split; [apply lookup_insert_eq|].
    split; [intros other Hne; by apply lookup_insert_ne|].
    split; [done|]. intros h'. unfold on. cbn [handlers secret].
    by rewrite insert_insert_eq.
  - intros event h1 h2 H1 H2. congruence.
Qed.

End Equivalence.

Lemma handle_agrees_with_handle_raw_witness :
  handle loads_evt str_first_arg (on (init whsec) (lit "job.created") echo)
    (request_of (headers_of (sign whsec stamp evt_body) stamp (lit "job.created"))
                evt_body)
  = handle_raw loads_evt str_first_arg (on (init whsec) (lit "job.created") echo)
      (headers_of (sign whsec stamp evt_body) stamp (lit "job.created")) evt_body.
Proof.
  apply (handle_agrees_with_handle_raw loads_evt str_first_arg); reflexivity.
Defined.

Lemma registry_changed_by_on_only_witness :
  handlers (on (on (init whsec) (lit "job.created") failing)
               (lit "job.created") echo) !! lit "job.created" = Some echo /\
  handlers (on (init whsec) (lit "job.created") echo) !! lit "job.closed" = None.
Proof.
  split.
  - apply (proj1 (proj1 (registry_changed_by_on_only loads_evt str_first_arg
             (on (init whsec) (lit "job.created") failing)
             (M_on (lit "job.created") echo)))).
  - pose proof (registry_changed_by_on_only loads_evt str_first_arg (init whsec)
                  (M_on (lit "job.created") echo)) as [(_ & H & _) _].
    cbn [call fst] in H. rewrite (H (lit "job.closed")).
    + reflexivity.
    + vm_compute. discriminate.
Defined.

End DispatchClaims.

(* ===================================================================== *)
(** * The request loop *)
(* ===================================================================== *)

Module ClientFacts.
Import Py Client Policy.

(** [response_data] for a body that is empty or parses. *)
Lemma try_suite_parsed r data :
  parsed_body r data ->
  try_suite (Ok r) =
  if negb (ok r) then
    let! error := make_error r data in
    if (400 <=? resp_status r)%Z && (resp_status r <? 500)%Z
    then Raise (ExnTRM error)
    else Ok (inr (ExnTRM error))
  else Ok (inl data).
Proof.
  intros [[Hc ->] | [Hc Hj]]; unfold try_suite; cbn [bind].
  - by rewrite Hc.
  - destruct (content r); [done|]. by rewrite Hj.
Qed.




Lemma ok_success r : (200 <= resp_status r <= 299)%Z -> ok r = true.
Proof.
  intros H. unfold ok.
  by assert ((400 <=? resp_status r)%Z = false) as -> by lia.
Qed.



Lemma attempt_success r data :
  (200 <= resp_status r <= 299)%Z -> parsed_body r data ->
  attempt_once (Ok r) = Return data.
Proof.
  intros Hs Hb. unfold attempt_once.
  by rewrite (try_suite_parsed r data Hb), (ok_success r Hs).
Qed.








Section Loop.
Variable transport : nat -> outcome Response.
Variable pause : nat -> Q -> option exn.

(** [k] attempts in a row that fall through to the back-off, none of them
    the last one allowed, each followed by a pause that completes: the
    loop goes on after [k] rounds of call and pause. *)
Lemma attempts_retried self k : forall n start last,
  (forall i, (start <= i < start + k)%nat -> retried (transport i)) ->
  (forall i, (start <= i < start + k)%nat -> pause i (backoff self i) = None) ->
  (Z.of_nat (start + k) < max_retries self)%Z ->
  exists last',
    attempts transport pause self (k + n) start last =
    (List.concat (List.map (retry_round self) (List.seq start k))
       ++ fst (attempts transport pause self n (start + k) last'),
     snd (attempts transport pause self n (start + k) last')).
Proof.
  induction k as [|k IH]; intros n start last Hall Hp Hlt.
  - exists last. rewrite Nat.add_0_r. cbn [Nat.add List.seq List.map List.concat app].
    by destruct (attempts transport pause self n start last).
  - destruct (Hall start) as [e He]; [lia|].
    destruct (IH n (S start) (Some e)) as [last' Hrec].
    { intros i Hi. apply Hall. lia. }
    { intros i Hi. apply Hp. lia. }
    { lia. }
    exists last'. cbn [Nat.add attempts]. rewrite He.
    assert ((Z.of_nat start <? max_retries self - 1)%Z = true) as -> by lia.
    rewrite (Hp start) by lia.
    rewrite Hrec. replace (S start + k)%nat with (start + S k)%nat by lia.
    cbn [List.seq List.map List.concat retry_round app fst snd]. done.
Qed.

(** The loop from the start, up to an attempt [k] that is allowed. *)
Lemma request_reaches self k :
  (Z.of_nat k < max_retries self)%Z ->
  (forall i, (i < k)%nat -> retried (transport i)) ->
  pauses_return pause self k ->
  exists m last',
    _request transport pause self =
    (retried_rounds self k ++ fst (attempts transport pause self (S m) k last'),
     snd (attempts transport pause self (S m) k last')).
Proof.
  intros Hlt Hall Hp. unfold _request.
  exists (Z.to_nat (max_retries self) - S k)%nat.
  destruct (attempts_retried self k (S (Z.to_nat (max_retries self) - S k)) 0 None)
    as [last' H]; [intros i Hi; apply Hall; lia|intros i Hi; apply Hp; lia|lia|].
  exists last'.
  replace (Z.to_nat (max_retries self))
    with (k + S (Z.to_nat (max_retries self) - S k))%nat at 1 by lia.
  exact H.
Qed.

End Loop.
End ClientFacts.

Module ClientClaims.
Import Py Client Policy ClientFacts ClientScenario.

(** C3.  The code retries a client error, against its own comment "Don't
    retry on client errors": a 404 whose body is an HTML page makes
    [json()] raise the [JSONDecodeError] of [requests], which is a
    [RequestException]; the [except] clause records it and the loop goes
    on, to three transport calls and two pauses, where the claim has one
    call, no pause and a [TRMError]. *)
Example client_error_html_body_retried :
  _request (always (Ok not_found_html)) clock client3 =
  ([Send 0; Sleep (backoff client3 0); Send 1; Sleep (backoff client3 1); Send 2],
   Raise (Exn RequestException (lit "Expecting value"))).
Proof. vm_compute. reflexivity. Qed.



Section WithTransport.
Variable transport : nat -> outcome Response.
Variable pause : nat -> Q -> option exn.


(** C7.  A response with a success status (2xx), received on an attempt
    [k] that the loop reaches (the earlier attempts were retried and their
    pauses completed), whose body is empty or parses as JSON: [_request]
    returns at that attempt - the empty object for zero content, the
    parsed value otherwise - with no pause and no transport call after
    it. *)
Theorem success_returns_at_once
    (self : TRMClient) (k : nat) (r : Response) (data : value) :
  (Z.of_nat k < max_retries self)%Z ->
  (forall i, (i < k)%nat -> retried (transport i)) ->
  pauses_return pause self k ->
  transport k = Ok r ->
  (200 <= resp_status r <= 299)%Z ->
  parsed_body r data ->
  _request transport pause self = (retried_rounds self k ++ [Send k], Ok data)
  /\ (content r = [] -> data = VDict [])
  /\ (content r <> [] -> json r = Ok data)
  /\ (k = 0%nat -> fst (_request transport pause self) = [Send 0%nat]).
Proof.
  intros Hlt Hall Hp Hk Hs Hb.
  destruct (request_reaches transport pause self k Hlt Hall Hp) as (m & last' & ->).
  cbn [attempts]. rewrite Hk, (attempt_success r data Hs Hb).
  cbn [fst snd]. split; [done|].
  split; [|split].
  - intros Hc. by destruct Hb as [[_ ->] | [Hn _]].
  - intros Hc. by destruct Hb as [[Hn _] | [_ Hj]].
  - by intros ->.
Qed.


End WithTransport.


Lemma success_returns_at_once_witness :
  _request (after 1 timed_out (Ok no_content)) clock client3 =
    ([Send 0; Sleep (backoff client3 0); Send 1], Ok (VDict [])).
Proof.
  apply (success_returns_at_once (after 1 timed_out (Ok no_content)) clock
           client3 1 no_content (VDict [])).
  - reflexivity.
  - intros i Hi. assert (i = 0%nat) as -> by lia.
    exists (Exn RequestException (lit "Read timed out")). reflexivity.
  - intros i Hi. assert (i = 0%nat) as -> by lia. reflexivity.
  - reflexivity.
  - vm_compute. split; discriminate.
  - left. split; reflexivity.
Defined.


End ClientClaims.

(* ===================================================================== *)
(** * Further properties of the request loop *)
(* ===================================================================== *)

Module LoopFacts.
Import Py Client Policy ClientFacts Shape.




(** How an attempt that returns came about. *)
Lemma attempt_return_inv sent v :
  attempt_once sent = Return v ->
  exists r, sent = Ok r /\ ok r = true /\ parsed_body r v.
Proof.
  unfold attempt_once, try_suite. destruct sent as [r|e]; cbn [bind].
  2:{ by destruct (is_RequestException e). }
  intros H. exists r. split; [done|].
  destruct (content r) as [|c bs] eqn:Hc; cbn [bind] in H.
  - destruct (ok r); cbn [negb] in H.
    + injection H as <-. split; [done|]. by left.
    + destruct (make_error r (VDict [])) as [t|e]; cbn [bind] in H.
      * by destruct (_ && _).
      * by destruct (is_RequestException e).
  - destruct (json r) as [d|e] eqn:Hj; cbn [bind] in H.
    2:{ by destruct (is_RequestException e). }
    destruct (ok r); cbn [negb] in H.
    + injection H as <-. split; [done|]. right. by rewrite Hc.
    + destruct (make_error r d) as [t|e]; cbn [bind] in H.
      * by destruct (_ && _).
      * by destruct (is_RequestException e).
Qed.

(** Building the error fails on the offending value, with the
    [AttributeError] that names its type. *)
Lemma make_error_unshaped r data v :
  offending data = Some v -> make_error r data = Raise (no_get v).
Proof.
  intros H. unfold make_error, error_field.
  destruct data as [| | | | | |d]; cbn [offending] in H;
    try (injection H as <-; reflexivity).
  cbn [py_get bind].
  destruct (dict_get d (lit "error")) as [[| | | | | |e]|]; try done;
    by injection H as <-.
Qed.





Section Loop.
Variable transport : nat -> outcome Response.
Variable pause : nat -> Q -> option exn.


(** A returned value is the body of a response that [response.ok]
    accepts, met after retried attempts and completed pauses only. *)
Lemma attempts_return_inv self v : forall n start last,
  Z.of_nat (start + n) = max_retries self ->
  snd (attempts transport pause self n start last) = Ok v ->
  exists j, (j < n)%nat /\
    attempt_once (transport (start + j)) = Return v /\
    (forall i, (start <= i < start + j)%nat -> retried (transport i)) /\
    (forall i, (start <= i < start + j)%nat -> pause i (backoff self i) = None) /\
    fst (attempts transport pause self n start last) =
    List.concat (List.map (retry_round self) (List.seq start j))
    ++ [Send (start + j)].
Proof.
  induction n as [|n IH]; intros start last HN; [done|].
  cbn [attempts]. destruct (attempt_once (transport start)) as [v'|e|e] eqn:Ha.
  - cbn [snd fst]. intros [= <-]. exists 0%nat. rewrite Nat.add_0_r.
    split; [lia|]. split; [done|].
    split; [intros i Hi; lia|]. split; [intros i Hi; lia|done].
  - done.
  - destruct (Z.of_nat start <? max_retries self - 1)%Z eqn:Hc.
    2:{ destruct n as [|n']; [done|lia]. }
    destruct (pause start (backoff self start)) as [raised|] eqn:Hp; [done|].
    destruct (attempts transport pause self n (S start) (Some e)) as [t r] eqn:E.
    cbn [snd fst]. intros ->.
    destruct (IH (S start) (Some e)) as (j & Hj & Hr & Hall & Hps & Ht);
      [lia|by rewrite E|].
    rewrite E in Ht. cbn [fst] in Ht.
    exists (S j). split; [lia|].
    replace (start + S j)%nat with (S start + j)%nat by lia.
    split; [done|]. split; [|split].
    + intros i Hi. destruct (decide (i = start)) as [->|Hne].
      * by exists e.
      * apply Hall. lia.
    + intros i Hi. destruct (decide (i = start)) as [->|Hne]; [done|].
      apply Hps. lia.
    + rewrite Ht. reflexivity.
Qed.

(** The attempt [k] is the last one allowed and falls through: the call
    raises what that attempt recorded. *)
Lemma request_last_retried self k e :
  Z.of_nat (S k) = max_retries self ->
  (forall i, (i < k)%nat -> retried (transport i)) ->
  pauses_return pause self k ->
  attempt_once (transport k) = Next e ->
  _request transport pause self = (retried_rounds self k ++ [Send k], Raise e).
Proof.
  intros HN Hall Hp He. unfold _request. rewrite <- HN, Nat2Z.id.
  destruct (attempts_retried transport pause self k 1 0 None) as [last' H].
  { intros i Hi. apply Hall. lia. }
  { intros i Hi. apply Hp. lia. }
  { lia. }
  replace (S k) with (k + 1)%nat by lia. rewrite H.
  cbn [Nat.add attempts]. rewrite He.
  by assert ((Z.of_nat k <? max_retries self - 1)%Z = false) as -> by lia.
Qed.

(** The attempt [k] is reached and ends the call. *)
Lemma request_ends_at self k :
  (Z.of_nat k < max_retries self)%Z ->
  (forall i, (i < k)%nat -> retried (transport i)) ->
  pauses_return pause self k ->
  forall e, attempt_once (transport k) = Propagate e ->
  _request transport pause self = (retried_rounds self k ++ [Send k], Raise e).
Proof.
  intros Hlt Hall Hp e He.
  destruct (request_reaches transport pause self k Hlt Hall Hp) as (m & last' & ->).
  cbn [attempts]. by rewrite He.
Qed.




End Loop.
End LoopFacts.

Module LoopProperties.
Import Py Client Policy ClientFacts Shape LoopFacts ClientScenario LoopScenario.

Section AnyTransport.
Variable transport : nat -> outcome Response.
Variable pause : nat -> Q -> option exn.


(** X2.  With [max_retries] zero or negative nothing is sent: [_request]
    raises the "Max retries exceeded" [TRMError] without a transport call
    and without a pause. *)
Theorem no_attempt_without_retries (self : TRMClient) :
  (max_retries self <= 0)%Z ->
  _request transport pause self =
  ([], Raise (ExnTRM {| message := VStr (lit "Max retries exceeded");
                        code := VStr (lit "max_retries");
                        error_type := VStr (lit "request_error");
                        status_code := 0%Z;
                        response := VDict [] |})).
Proof.
  intros H. unfold _request.
  by replace (Z.to_nat (max_retries self)) with 0%nat by lia.
Qed.

(** X3.  A value that [_request] returns is the body of the response to
    the last call it made: that response has a status outside 400..599,
    its body is the returned value (the empty object for zero content, what
    [json()] gave otherwise), every earlier attempt was retried and every
    pause before it completed. *)
Theorem returned_value_provenance (self : TRMClient) (v : value) :
  snd (_request transport pause self) = Ok v ->
  exists k r,
    (Z.of_nat k < max_retries self)%Z /\
    transport k = Ok r /\
    ~ (400 <= resp_status r <= 599)%Z /\
    parsed_body r v /\
    (forall i, (i < k)%nat -> retried (transport i)) /\
    pauses_return pause self k /\
    fst (_request transport pause self) = retried_rounds self k ++ [Send k].
Proof.
  intros H. unfold _request in *.
  destruct (Z.le_gt_cases 0 (max_retries self)) as [HN|HN].
  2:{ by replace (Z.to_nat (max_retries self)) with 0%nat in H by lia. }
  destruct (attempts_return_inv transport pause self v
              (Z.to_nat (max_retries self)) 0 None)
    as (j & Hj & Hr & Hall & Hps & Ht); [lia|done|].
  cbn [Nat.add] in Hr.
  destruct (attempt_return_inv _ _ Hr) as (r & Hk & Hok & Hb).
  exists j, r. split; [lia|]. split; [done|]. split.
  { unfold ok in Hok. intros Hs.
    assert ((400 <=? resp_status r)%Z = true) as E1 by lia.
    assert ((resp_status r <? 600)%Z = true) as E2 by lia.
    by rewrite E1, E2 in Hok. }
  split; [done|]. split; [intros i Hi; apply Hall; lia|].
  split; [intros i Hi; apply Hps; lia|]. exact Ht.
Qed.

(** X4.  An exception of the transport that is not a [RequestException]
    is not retried: on an attempt the loop reaches (the earlier attempts
    were retried and their pauses completed) it leaves [_request] at once,
    with no pause and no call after it. *)
Theorem foreign_exception_propagates (self : TRMClient) (k : nat) (e : exn) :
  (Z.of_nat k < max_retries self)%Z ->
  (forall i, (i < k)%nat -> retried (transport i)) ->
  pauses_return pause self k ->
  transport k = Raise e ->
  is_RequestException e = false ->
  _request transport pause self = (retried_rounds self k ++ [Send k], Raise e).
Proof.
  intros Hlt Hall Hp Hk He. apply request_ends_at; [done|done|done|].
  rewrite Hk. unfold attempt_once. cbn. by rewrite He.
Qed.

(** X5.  An error response (status 400..599), on an attempt the loop
    reaches, whose body is not an object, or whose ["error"] member is not
    an object, is not turned into a [TRMError] and is not retried, not even
    for a server error: building the error raises the [AttributeError]
    "'T' object has no attribute 'get'", [T] the type of the offending
    value, which leaves [_request] at once. *)
Theorem malformed_error_body_not_retried
    (self : TRMClient) (k : nat) (r : Response) (data v : value) :
  (Z.of_nat k < max_retries self)%Z ->
  (forall i, (i < k)%nat -> retried (transport i)) ->
  pauses_return pause self k ->
  transport k = Ok r ->
  (400 <= resp_status r <= 599)%Z ->
  parsed_body r data ->
  offending data = Some v ->
  _request transport pause self =
  (retried_rounds self k ++ [Send k],
   Raise (Exn AttributeError
            (lit "'" ++ type_name v ++ lit "' object has no attribute 'get'"))).
Proof.
  intros Hlt Hall Hp Hk Hs Hb He. apply request_ends_at; [done|done|done|].
  rewrite Hk. unfold attempt_once. rewrite (try_suite_parsed r data Hb).
  assert (ok r = false) as ->.
  { unfold ok.
    assert ((400 <=? resp_status r)%Z = true) as -> by lia.
    by assert ((resp_status r <? 600)%Z = true) as -> by lia. }
  cbn [negb]. by rewrite (make_error_unshaped r data v He).
Qed.


(** X7.  A response with content on which [json()] raises is never
    returned, whatever its status.  On an attempt the loop reaches: if the
    exception is not a [RequestException] it leaves [_request] at once; if
    it is one, the attempt is retried like a transport failure, and on the
    last attempt allowed the call raises that exception. *)
Theorem unparsable_body_never_returned
    (self : TRMClient) (k : nat) (r : Response) (e : exn) :
  (Z.of_nat k < max_retries self)%Z ->
  (forall i, (i < k)%nat -> retried (transport i)) ->
  pauses_return pause self k ->
  transport k = Ok r ->
  content r <> [] ->
  json r = Raise e ->
  (is_RequestException e = false ->
   _request transport pause self = (retried_rounds self k ++ [Send k], Raise e))
  /\
  (is_RequestException e = true ->
   retried (transport k) /\
   (Z.of_nat (S k) = max_retries self ->
    _request transport pause self = (retried_rounds self k ++ [Send k], Raise e))).
Proof.
  intros Hlt Hall Hp Hk Hc Hj.
  assert (try_suite (Ok r) = Raise e) as Ht.
  { unfold try_suite. cbn [bind]. destruct (content r); [done|].
    by rewrite Hj. }
  split; intros He.
  - apply request_ends_at; [done|done|done|].
    rewrite Hk. unfold attempt_once. by rewrite Ht, He.
  - assert (attempt_once (transport k) = Next e) as Hn.
    { rewrite Hk. unfold attempt_once. by rewrite Ht, He. }
    split; [by exists e|]. intros HN. by apply request_last_retried.
Qed.

End AnyTransport.


Lemma no_attempt_without_retries_witness :
  _request (always (Ok no_content)) clock client0 =
  ([], Raise (ExnTRM max_retries_exceeded)).
Proof.
  apply (no_attempt_without_retries (always (Ok no_content)) clock client0).
  vm_compute. discriminate.
Defined.

Lemma returned_value_provenance_witness :
  exists k r,
    after 1 timed_out (Ok created) k = Ok r /\
    parsed_body r (VDict [(lit "id", VInt 7)]).
Proof.
  destruct (returned_value_provenance (after 1 timed_out (Ok created)) clock
              client3 (VDict [(lit "id", VInt 7)]))
    as (k & r & _ & Hk & _ & Hb & _).
  - vm_compute. reflexivity.
  - exists k, r. split; [exact Hk|exact Hb].
Defined.

Lemma foreign_exception_propagates_witness :
  _request (after 1 timed_out interrupted) clock client3 =
  ([Send 0; Sleep (backoff client3 0); Send 1],
   Raise (Exn BaseExceptionOnly (lit "KeyboardInterrupt"))).
Proof.
  apply (foreign_exception_propagates (after 1 timed_out interrupted) clock
           client3 1).
  - reflexivity.
  - intros i Hi. assert (i = 0%nat) as -> by lia.
    exists (Exn RequestException (lit "Read timed out")). reflexivity.
  - intros i Hi. assert (i = 0%nat) as -> by lia. reflexivity.
  - reflexivity.
  - reflexivity.
Defined.

Lemma malformed_error_body_not_retried_witness :
  _request (always (Ok server_flat)) clock client3 =
  ([Send 0],
   Raise (Exn AttributeError (lit "'str' object has no attribute 'get'"))).
Proof.
  apply (malformed_error_body_not_retried (always (Ok server_flat)) clock
           client3 0 server_flat flat_error (VStr (lit "boom"))).
  - reflexivity.
  - intros i Hi. lia.
  - intros i Hi. lia.
  - reflexivity.
  - vm_compute. split; discriminate.
  - right. split; [discriminate|reflexivity].
  - reflexivity.
Defined.


Lemma unparsable_body_never_returned_witness :
  _request (always (Ok garbled)) clock client3 =
  ([Send 0], Raise (Exn OtherException (lit "Expecting value"))).
Proof.
  destruct (unparsable_body_never_returned (always (Ok garbled)) clock client3 0
              garbled (Exn OtherException (lit "Expecting value"))) as [H _].
  - reflexivity.
  - intros i Hi. lia.
  - intros i Hi. lia.
  - reflexivity.
  - discriminate.
  - reflexivity.
  - apply H. reflexivity.
Defined.

End LoopProperties.

(* ===================================================================== *)
(** * Further properties of dispatch *)
(* ===================================================================== *)

Module DispatchProperties.
Import Py Webhooks Documented Scenario DispatchFacts.


Section WithJson.
Variable json_loads : bytes -> outcome value.
Variable str_of : exn -> outcome pystr.

(** X8.  [handle_raw] calls a handler only for an authenticated payload:
    if a handler call appears among its steps, the three headers were
    present, the body is valid UTF-8 and carries the documented HMAC of
    timestamp, dot and body under the secret, the handler is the one
    registered for the event, it passed the truth test of [if handler:],
    and its argument is what [json.loads] made of the body; it is the only
    handler call and comes after the two checks.  A body is handed to
    [json.loads] only after its signature verified. *)
Theorem handler_runs_on_authenticated_payload_only
    (self : WebhookHandler) (headers : gmap pystr pystr) (body : bytes) :
  (forall ev data,
     List.In (CallHandler ev data) (fst (handle_raw json_loads str_of self headers body)) ->
     exists sg ts,
       headers !! lit "X-TRM-Signature" = Some sg /\
       headers !! lit "X-TRM-Timestamp" = Some ts /\
       headers !! lit "X-TRM-Event" = Some ev /\
       valid_utf8 body /\
       documented_signature (secret self) ts body (provided_part sg) /\
       json_loads body = Ok data /\
       is_Some (handlers self !! ev) /\
       (exists h, handlers self !! ev = Some h /\ truth h = Ok true) /\
       fst (handle_raw json_loads str_of self headers body)
       = [CheckSignature body sg ts; ParseJson body; CallHandler ev data])
  /\
  (forall b,
     List.In (ParseJson b) (fst (handle_raw json_loads str_of self headers body)) ->
     b = body /\
     exists sg ts,
       headers !! lit "X-TRM-Signature" = Some sg /\
       headers !! lit "X-TRM-Timestamp" = Some ts /\
       verify_signature self body sg ts = Ok true).
Proof.
  destruct (truthy (headers !! lit "X-TRM-Signature")) eqn:Ts;
    [|rewrite handle_raw_missing; [by split|left; by apply truthy_false_iff]].
  destruct (truthy (headers !! lit "X-TRM-Timestamp")) eqn:Tt;
    [|rewrite handle_raw_missing;
      [by split|right; left; by apply truthy_false_iff]].
  destruct (truthy (headers !! lit "X-TRM-Event")) eqn:Te;
    [|rewrite handle_raw_missing;
      [by split|right; right; by apply truthy_false_iff]].
  apply truthy_true_iff in Ts as (sg & Hs & Ns), Tt as (ts & Ht & Nt),
    Te as (ev0 & He & Ne).
  rewrite (handle_raw_present json_loads str_of self headers body sg ts ev0) by done.
  destruct (WebhookFacts.verify_signature_bool self body sg ts) as [Hv | Hv];
    rewrite Hv.
  2:{ cbn. split; [intros ev data [|[]]; done|intros b [|[]]; done]. }
  pose proof Hv as Hd. apply WebhookFacts.verify_signature_true_iff in Hd as [Hu Hd].
  destruct (json_loads body) as [data0|e0] eqn:Hj.
  2:{ cbn [fst]. split.
      - intros ev data [|[|[]]]; done.
      - intros b [|[[= <-]|[]]]; [done|]. split; [done|]. by exists sg, ts. }
  destruct (handlers self !! ev0) as [h|] eqn:Hh.
  2:{ cbn [fst]. split.
      - intros ev data [|[|[]]]; done.
      - intros b [|[[= <-]|[]]]; [done|]. split; [done|]. by exists sg, ts. }
  destruct (truth h) as [[]|e1] eqn:Htr; cbn [fst]; split.
  - intros ev data [|[|[[= <- <-]|[]]]]; try done.
    exists sg, ts. rewrite Hh. repeat split; try done. by exists h.
  - intros b [|[[= <-]|[|[]]]]; try done. split; [done|]. by exists sg, ts.
  - intros ev data [|[|[]]]; done.
  - intros b [|[[= <-]|[]]]; [done|]. split; [done|]. by exists sg, ts.
  - intros ev data [|[|[]]]; done.
  - intros b [|[[= <-]|[]]]; [done|]. split; [done|]. by exists sg, ts.
Qed.


End WithJson.

Lemma handler_runs_on_authenticated_payload_only_witness :
  documented_signature whsec stamp evt_body
    (provided_part (sign whsec stamp evt_body)).
Proof.
  destruct (proj1 (handler_runs_on_authenticated_payload_only loads_evt str_first_arg
                     (on (init whsec) (lit "job.created") echo)
                     (headers_of (sign whsec stamp evt_body) stamp (lit "job.created"))
                     evt_body)
              (lit "job.created") evt_data)
    as (sg & ts & Hs & Ht & _ & _ & Hd & _).
  - vm_compute. right. right. left. reflexivity.
  - assert (sg = sign whsec stamp evt_body) as ->.
    { vm_compute in Hs. injection Hs as <-. vm_compute. reflexivity. }
    assert (ts = stamp) as ->.
    { vm_compute in Ht. injection Ht as <-. reflexivity. }
    exact Hd.
Defined.


End DispatchProperties.

(* ===================================================================== *)
(** * Properties of the constructor and the resource methods *)
(* ===================================================================== *)

Module ResourceFacts.
Import Py Client Resources.

Lemma lstrip_repeat m e :
  lstrip_slash (List.repeat slash m ++ e) = lstrip_slash e.
Proof. induction m as [|m IH]; [done|]. cbn [List.repeat app lstrip_slash]. done. Qed.

Lemma lstrip_no_leading_slash e s : lstrip_slash e <> slash :: s.
Proof.
  induction e as [|c e IH]; cbn [lstrip_slash]; [done|].
  destruct (N.eqb_spec c slash) as [->|Hne]; [done|]. congruence.
Qed.

Lemma rev_repeat_slash n : List.rev (List.repeat slash n) = List.repeat slash n.
Proof.
  induction n as [|n IH]; [done|]. cbn [List.repeat List.rev].
  by rewrite IH, <- List.repeat_cons.
Qed.

Lemma rstrip_app_repeat b n :
  rstrip_slash (b ++ List.repeat slash n) = rstrip_slash b.
Proof.
  unfold rstrip_slash. by rewrite List.rev_app_distr, rev_repeat_slash, lstrip_repeat.
Qed.

Lemma rstrip_no_trailing_slash b s : rstrip_slash b <> s ++ [slash].
Proof.
  unfold rstrip_slash. intros H.
  apply (f_equal (@List.rev N)) in H.
  rewrite List.rev_involutive, List.rev_app_distr in H. cbn in H.
  by apply lstrip_no_leading_slash in H.
Qed.

(** Up to the first slash two slash-free prefixes agree. *)
Lemma split_at_slash a a' r r' :
  no_slash a -> no_slash a' ->
  a ++ slash :: r = a' ++ slash :: r' -> a = a' /\ r = r'.
Proof.
  unfold no_slash. revert a'.
  induction a as [|c a IH]; intros [|c' a'] Ha Ha' H; cbn in *.
  - by injection H as ->.
  - injection H as <- _. by rewrite N.eqb_refl in Ha'.
  - injection H as -> _. by rewrite N.eqb_refl in Ha.
  - injection H as -> H. apply andb_prop in Ha as [_ Ha], Ha' as [_ Ha'].
    destruct (IH a' Ha Ha' H) as [-> ->]. done.
Qed.

Lemma no_slash_app a b : no_slash (a ++ b) -> no_slash a /\ no_slash b.
Proof.
  unfold no_slash. rewrite List.forallb_app. intros H.
  by apply andb_prop in H.
Qed.

End ResourceFacts.

Module ResourceProperties.
Import Py Client Resources ResourceFacts.

(** X10.  Slashes between base URL and path are normalized before the two
    are joined: trailing slashes of the base URL given to the constructor
    and leading slashes of the endpoint change nothing in what is handed
    to [session.request]; the base given to [urljoin] always ends in
    exactly one slash and the relative part never starts with one. *)
Theorem slashes_normalized
    (key base : pystr) (t mr : Z) (rd : Q) (n m : nat)
    (v e : pystr) (d : value) (p : option (list (pystr * value))) :
  request_args (new_client key (base ++ List.repeat slash n) t mr rd)
               (mkCall v (List.repeat slash m ++ e) d p)
  = request_args (new_client key base t mr rd) (mkCall v e d p)
  /\
  (exists s,
     sr_join_base (request_args (new_client key base t mr rd) (mkCall v e d p))
     = s ++ [slash] /\ forall s', s <> s' ++ [slash])
  /\
  (forall s,
     sr_join_rel (request_args (new_client key base t mr rd) (mkCall v e d p))
     <> slash :: s).
Proof.
  split; [|split].
  - unfold request_args, new_client.
    cbn [base_url timeout verb endpoint data params].
    by rewrite rstrip_app_repeat, lstrip_repeat.
  - exists (rstrip_slash base). split; [done|].
    intros s'. apply rstrip_no_trailing_slash.
  - intros s. apply lstrip_no_leading_slash.
Qed.

(** X11.  Optional arguments that are missing or empty are dropped.  The
    body of [update_referral_status] always has the member ["status"] with
    the given status, and has a member ["notes"] exactly when the notes are
    a non-empty string, which is then its value; the body of
    [revoke_api_key] is an object in every case, empty exactly when the
    reason is missing or empty, and holding the reason otherwise. *)
Theorem empty_optional_arguments_dropped
    (id status : pystr) (notes reason : option pystr) :
  (exists d,
     data (call_of (update_referral_status id status notes)) = VDict d /\
     dict_get d (lit "status") = Some (VStr status) /\
     (forall n, dict_get d (lit "notes") = Some (VStr n)
                <-> notes = Some n /\ n <> []) /\
     (dict_get d (lit "notes") = None <-> notes = None \/ notes = Some []))
  /\
  (exists d,
     data (call_of (revoke_api_key id reason)) = VDict d /\
     (d = [] <-> reason = None \/ reason = Some []) /\
     (forall r, dict_get d (lit "reason") = Some (VStr r)
                <-> reason = Some r /\ r <> [])).
Proof.
  split.
  - destruct notes as [[|c n]|]; cbn [call_of data given default];
      eexists; (split; [reflexivity|]); (split; [reflexivity|]);
      change (dict_get _ (lit "notes")) with (@None value)
      || change (dict_get _ (lit "notes")) with (Some (VStr (c :: n))).
    + split; [split; [done|by intros [[= <-] H]]|]. split; [by right|done].
    + split; [|split; [done|by intros [|]]].
      intros n'. split; [by intros [= <-]|by intros [[= <-] _]].
    + split; [split; [done|by intros [? _]]|]. split; [by left|done].
  - destruct reason as [[|c r]|]; cbn [call_of data given default];
      eexists; (split; [reflexivity|]).
    + split; [split; [by right|done]|].
      intros r'. split; [done|by intros [[= <-] H]].
    + split; [split; [done|by intros [|]]|].
      intros r'. change (dict_get _ (lit "reason")) with (Some (VStr (c :: r))).
      split; [by intros [= <-]|by intros [[= <-] _]].
    + split; [split; [by left|done]|].
      intros r'. split; [done|by intros [? _]].
Qed.

(** X12.  Over the whole catalog of resource methods: the verb is one of
    GET, POST, PUT, PATCH and DELETE; query parameters are sent with GET
    only; a GET never carries a JSON body; and the endpoint starts with
    exactly one slash, which is what [_request] strips before joining. *)
Theorem catalog_invariants (op : operation) :
  List.In (verb (call_of op)) [GET; POST; PUT; PATCH; DELETE] /\
  (params (call_of op) <> None -> verb (call_of op) = GET) /\
  (verb (call_of op) = GET -> data (call_of op) = VNone) /\
  (exists rest,
     endpoint (call_of op) = slash :: rest /\
     lstrip_slash (endpoint (call_of op)) = rest /\ rest <> []).
Proof.
  destruct op; cbn [call_of verb params data endpoint];
    (split; [cbn; tauto|]);
    (split; [try done; intros _; reflexivity|]);
    (split; [try done; intros H; vm_compute in H; discriminate|]);
    eexists; (split; [reflexivity|]); split; done.
Qed.

(** X13.  Identifiers are placed in the path as they are, so an identifier
    containing a slash or equal to a fixed segment addresses another
    method's endpoint: [get_job] on [id/related] requests the endpoint of
    [get_related_jobs id], [get_webhook] on [w/deliveries/d] that of
    [get_delivery w d], and [get_user] makes the call of
    [get_current_user] exactly when the identifier is ["me"]. *)
Theorem identifiers_not_escaped (id wid did : pystr) (kw : list (pystr * value)) :
  (verb (call_of (get_job (id ++ lit "/related")))
   = verb (call_of (get_related_jobs id kw)) /\
   endpoint (call_of (get_job (id ++ lit "/related")))
   = endpoint (call_of (get_related_jobs id kw)))
  /\
  call_of (get_webhook (wid ++ lit "/deliveries/" ++ did))
  = call_of (get_delivery wid did)
  /\
  (call_of (get_user id) = call_of get_current_user <-> id = lit "me").
Proof.
  split; [by split|]. split; [done|]. split.
  - intros H. apply (f_equal endpoint) in H. cbn [call_of endpoint] in H.
    change (lit "/users/me") with (lit "/users/" ++ lit "me") in H.
    by apply List.app_inv_head in H.
  - by intros ->.
Qed.

(** X14.  Identifiers without a slash keep the endpoints apart: the
    endpoint of [get_delivery] determines both identifiers, and the
    endpoint of [get_job] is never the endpoint of [get_related_jobs]. *)
Theorem slash_free_identifiers_keep_apart
    (wid did wid' did' : pystr) (kw : list (pystr * value)) :
  no_slash wid -> no_slash wid' ->
  (endpoint (call_of (get_delivery wid did))
   = endpoint (call_of (get_delivery wid' did')) ->
   wid = wid' /\ did = did')
  /\
  endpoint (call_of (get_job wid)) <> endpoint (call_of (get_related_jobs wid' kw)).
Proof.
  intros Hw Hw'. cbn [call_of endpoint]. split.
  - intros H. apply List.app_inv_head in H.
    change (lit "/deliveries/" ++ did) with (slash :: lit "deliveries/" ++ did) in H.
    change (lit "/deliveries/" ++ did') with (slash :: lit "deliveries/" ++ did') in H.
    destruct (split_at_slash _ _ _ _ Hw Hw' H) as [-> H']. split; [done|].
    by apply List.app_inv_head in H'.
  - intros H. apply List.app_inv_head in H. rewrite H in Hw.
    apply no_slash_app in Hw as [_ Hw]. vm_compute in Hw. discriminate.
Qed.

Lemma slash_free_identifiers_keep_apart_witness :
  endpoint (call_of (get_job (lit "j1")))
  <> endpoint (call_of (get_related_jobs (lit "j1") [])).
Proof.
  apply (proj2 (slash_free_identifiers_keep_apart (lit "j1") [] (lit "j1") [] []
                  ltac:(reflexivity) ltac:(reflexivity))).
Defined.

End ResourceProperties.

(* ===================================================================== *)
(** * The shape of an accepted signature; statuses that count as success *)
(* ===================================================================== *)

Module DigestFacts.
Import Py Sha256 SignatureShape.

Lemma rounds_length ks : forall w st,
  List.length st = 8%nat -> List.length (rounds ks w st) = 8%nat.
Proof. induction ks as [|k ks IH]; intros w st H; [done|]. by apply IH. Qed.

Lemma compress_length h block :
  List.length h = 8%nat -> List.length (compress h block) = 8%nat.
Proof.
  intros H. unfold compress.
  rewrite List.length_map, List.length_combine, rounds_length, H; done.
Qed.

Lemma blocks_length n : forall h bs,
  List.length h = 8%nat -> List.length (blocks n h bs) = 8%nat.
Proof.
  induction n as [|n IH]; intros h bs H; [done|].
  cbn [blocks]. by apply IH, compress_length.
Qed.

Lemma digest_N_length bs : List.length (digest_N bs) = 32%nat.
Proof.
  unfold digest_N.
  pose proof (blocks_length (List.length (pad bs) / 64) H0 (pad bs) eq_refl) as H.
  destruct (blocks _ _ _) as [|a [|b [|c [|d [|e [|f [|g [|h [|]]]]]]]]];
    try discriminate. reflexivity.
Qed.

Lemma hex_length (b : bytes) : List.length (hex b) = (2 * List.length b)%nat.
Proof.
  induction b as [|x b IH]; [done|]. unfold hex in *. cbn [List.map List.concat].
  rewrite List.length_app, IH. cbn [List.length]. lia.
Qed.

Lemma hex_byte_lower (x : byte) :
  is_lower_hex (hex_digit (Byte.to_N x / 16))
  && is_lower_hex (hex_digit (Byte.to_N x mod 16)) = true.
Proof. destruct x; vm_compute; reflexivity. Qed.

Lemma hex_lower (b : bytes) : List.forallb is_lower_hex (hex b) = true.
Proof.
  induction b as [|x b IH]; [done|].
  pose proof (hex_byte_lower x) as H. apply andb_prop in H as [H1 H2].
  unfold hex in *. cbn [List.map List.concat app List.forallb].
  by rewrite H1, H2, IH.
Qed.

Lemma hexdigest_length key msg : List.length (hexdigest key msg) = 64%nat.
Proof.
  unfold hexdigest, hmac_sha256, hmac_N, bytes_of_N.
  by rewrite hex_length, List.length_map, digest_N_length.
Qed.

End DigestFacts.

Module ShapeProperties.
Import Py Webhooks Documented Scenario SignatureShape DigestFacts.
Import Client Policy ClientFacts ClientScenario.

(** X16.  A signature header is accepted only if the part after its first
    [=] (the whole header when it has none) is exactly 64 characters, each
    a digit or a lowercase letter from a to f: an upper-case, shortened or
    padded digest is rejected. *)
Theorem accepted_signature_shape
    (self : WebhookHandler) (payload : bytes) (signature timestamp : pystr) :
  verify_signature self payload signature timestamp = Ok true ->
  List.length (provided_part signature) = 64%nat /\
  List.forallb is_lower_hex (provided_part signature) = true.
Proof.
  intros H. apply WebhookFacts.verify_signature_true_iff in H
    as [_ (key & t & _ & _ & ->)].
  split; [apply hexdigest_length|apply hex_lower].
Qed.

Lemma accepted_signature_shape_witness :
  List.length (provided_part (sign whsec stamp evt_body)) = 64%nat.
Proof.
  apply (accepted_signature_shape (init whsec) evt_body
           (sign whsec stamp evt_body) stamp).
  vm_compute. reflexivity.
Defined.

Section AnyTransport.
Variable transport : nat -> outcome Response.
Variable pause : nat -> Q -> option exn.

(** X15.  Every status outside 400..599 counts as success, not only 2xx:
    a response with such a status (a redirect that was not followed, an
    informational status, a status of 600 or more), on an attempt the loop
    reaches (the earlier attempts were retried and their pauses completed)
    and with a body that is empty or parses, is returned at that attempt
    and nothing is raised. *)
Theorem non_error_status_returned
    (self : TRMClient) (k : nat) (r : Response) (data : value) :
  (Z.of_nat k < max_retries self)%Z ->
  (forall i, (i < k)%nat -> retried (transport i)) ->
  pauses_return pause self k ->
  transport k = Ok r ->
  ((resp_status r < 400)%Z \/ (600 <= resp_status r)%Z) ->
  parsed_body r data ->
  _request transport pause self = (retried_rounds self k ++ [Send k], Ok data).
Proof.
  intros Hlt Hall Hp Hk Hs Hb.
  destruct (request_reaches transport pause self k Hlt Hall Hp)
    as (m & last' & ->).
  cbn [attempts]. rewrite Hk. unfold attempt_once.
  rewrite (try_suite_parsed r data Hb).
  assert (ok r = true) as ->; [|done].
  unfold ok. destruct Hs as [Hs|Hs].
  - by assert ((400 <=? resp_status r)%Z = false) as -> by lia.
  - assert ((resp_status r <? 600)%Z = false) as -> by lia.
    by rewrite andb_false_r.
Qed.

End AnyTransport.

Lemma non_error_status_returned_witness :
  _request (after 1 timed_out (Ok status_600)) clock client3
  = ([Send 0; Sleep (backoff client3 0); Send 1], Ok (VDict [])).
Proof.
  apply (non_error_status_returned (after 1 timed_out (Ok status_600)) clock
           client3 1 status_600).
  - reflexivity.
  - intros i Hi. assert (i = 0%nat) as -> by lia.
    exists (Exn RequestException (lit "Read timed out")). reflexivity.
  - intros i Hi. assert (i = 0%nat) as -> by lia. reflexivity.
  - reflexivity.
  - right. vm_compute. discriminate.
  - left. split; reflexivity.
Defined.

End ShapeProperties.
